(* ===== verification/_CoqProject ===== *)
-Q . S2P
Prelude.v
Domain.v
Persistence.v
OrderRepository.v
RepositorySpec.v
Totals.v
Specified.v
Ordering.v
Concurrency.v
Scenarios.v
