(* ===== verification/Prelude.v ===== *)
(** * Verification of the order repository of ddd-fcc-desafio-repository

    The program is a small domain-driven sample in TypeScript.  Its parts:
    - the entities [Address], [Customer], [Product], [OrderItem], [Order]
      (constructor validation, [activate]/[deactivate], [Order.total()]);
    - the repository interface ([create], [update], [find], [findAll]);
    - the repository implementation
      src/infrastructure/repository/order.repository.ts, which maps orders
      to rows through the Sequelize ORM: [create] is one
      [OrderModel.create] with the items included, [update] is a managed
      transaction (delete the order's items, [bulkCreate] the new ones,
      store the new total) inside a [try/catch] that only logs, [find] is
      [findOne] followed by a loop over [model.items], [findAll] maps the
      same loop over every row;
    - the test suites src/domain/entity/custumer.spec.ts and
      src/infrastructure/repository/order.repository.spec.ts.
    Callers build entities and pass them to the repository; the repository
    writes and reads rows of four tables linked by foreign keys.

    ** Files
    - [Prelude] (this file): the [result] type of a call that resolves or
      rejects; the state-and-error monad [ST] (stdpp's [MRet]/[MBind], so
      [x ← c; k] reads like [const x = await c; k]) with [throw] and
      [catch]; the JavaScript loop [for (x of xs) acc.push(f(x))] as
      [for_push]; list lemmas on rows selected by key; the hint databases
      [repo] (well-formedness, [eauto]) and [repo_run]; tactics [bind_ok]
      and [by_decide].
    - [Domain]: the entities, modelled from the specification (their
      classes are not in the repository): one [Module] per class with a
      [Record t], [new] for the constructor and one function per method;
      [Customer] is a state machine ([step] on [op], [reachable]).
    - [Persistence]: the persistence boundary, modelled from the
      specification: rows of the four tables ([OrderModel.t],
      [OrderItemModel.t], ...), the database [DB] as lists of rows in
      insertion order, the [World] (database and console), primary and
      foreign key checks, and the ORM calls the repository makes
      ([OrderModel_create], [OrderItemModel_destroy],
      [OrderItemModel_bulkCreate], [OrderModel_update_total],
      [OrderModel_findOne], [OrderModel_findAll], [transaction],
      [console_log]); the well-formedness [db_wf] and the combinators that
      carry it ([preserves_wf]).
    - [OrderRepository]: the translation of order.repository.ts, method by
      method, in [Module OrderRepository], with the interface as the class
      [RepositoryInterface]; its theorems.
    - [RepositorySpec]: the contract [RepositoryContract] (an abstract store
      of entities and the laws of the four methods), the order repository
      as an instance of it through the abstraction [abs_orders], a client
      proved against the class, and programs as sequences of [call]s.
    - [Totals]: the aggregate's total over runs of a program: the runs
      whose order [create]s are accepted ([sound_run], rule induction)
      keep every stored total equal to the sum of its stored items.
    - [Specified]: the repository the specification requires ([create]
      inside a transaction, [update] without its [catch], [find] resolving
      with [null] for a missing row), the contract of section 4.3 as the
      record [SpecContract], programs run on it ([spec_exec],
      [spec_reachable]), and how the source differs from it.
    - [Ordering]: two [update]s in sequence (calls are awaited one after
      the other): the equivalence [same_orders] of databases holding the
      same orders, with its [Equivalence] and [Proper] instances; last
      writer wins on one order, commutation on two.
    - [Concurrency]: calls started without awaiting each other (section 5,
      asynchronous suspension).  A [Task] is a call in flight, cut at its
      [await]s into turns ([Module OrderRepositoryTasks]: [create_task],
      [update_task], [find_task], [findAll_task]); a schedule interleaves
      the turns of several calls ([interleave]).  Run alone, each task
      computes its method of [OrderRepository].
    - [Scenarios]: the two test files, each test a definition, with the
      check that every expectation of the tests holds on the model.

    ** What is proved
    - Customer (modelled from the specification): the invariant (non-empty
      id, active only with an address) holds for every reachable customer;
      the constructor and [activate] on every branch.
    - Repository: [create] then [find] gives back the order (round trip);
      [create] resolves exactly when the schema accepts the order
      ([create_resolves_iff]) and a rejected order row changes nothing;
      [find] on a missing id rejects with the [TypeError] of dereferencing
      [null]; [find] and [findAll] agree and rebuild the stored rows;
      [update] either commits all three steps or none ([update_atomic]),
      replaces the whole item set and stores the new total, and always
      resolves; the order repository refines the abstract store
      ([order_repository_refinement]), and a client awaiting [create]s
      then [findAll] gets the new orders.
    - Sequences: two updates of one order leave exactly what the second
      alone leaves; updates of different orders commute up to
      [same_orders], which [find] and [findAll] cannot tell apart.
    - Bounds: when each line [price * quantity] is at most [B] and
      [n * B <= Number.MAX_SAFE_INTEGER], every value of [total()]'s
      accumulator and the stored total are safe integers, so the
      floating-point computation is exact.
    - Aggregate: on every run whose order [create]s the schema accepts,
      every stored total is the sum of the stored items ([sound_run_totals]).
    - Specification: the repository the specification requires meets the
      contract of section 4.3 ([specified_meets_contract]) and keeps the
      schema's constraints and consistent totals on every run of every
      program ([specified_runs_consistent]).
    - Findings: [update] swallows its failures (the specification requires
      propagating them); [update] of an order that is not stored silently
      does nothing; [create] is not atomic and can leave an order row
      whose total disagrees with its items ([create_not_atomic]); started
      together with [create], an [update] of the same order that runs
      between its two turns leaves the order with both item sets and the
      update's total ([create_update_interleaved]), and a [find] there
      sees the order without items ([create_find_dirty_read]); the update
      test cannot detect an update that does nothing; [changeName] can
      empty a name.

    ** Choices and bounds
    Numbers (price, quantity, total) are [Z]: JavaScript holds integers
    exactly up to [Number.MAX_SAFE_INTEGER] (2^53 - 1), and the bounds
    theorem gives the condition under which every value [total()]
    computes stays there; beyond it the model is not the program.  All
    recursion is structural (on lists, or on the turns of a call), so every
    definition is total and no fuel is needed; the theorems state results
    of runs, not conditional ones.  The ORM is modelled at the level the
    repository observes: [create] with [include] inserts the order row,
    then each item with [instance.save()] under [Promise.all] (all are
    attempted, the first failure is reported, nothing is undone);
    [bulkCreate] is one atomic statement; a managed transaction restores
    the database when its body rejects; rows come back in insertion
    order.  For calls in flight, a turn is the code from one resumption
    to the next [await] and its statement; [OrderModel.create] with
    [include] takes two turns (the row, then the items' saves started
    together), and [update]'s managed transaction takes one: section 5
    states that its three steps commit together and that concurrent
    updates are serialized by the database's isolation.  No theorem
    rests on that choice for [update] beyond the one-turn transaction
    running between [create]'s two turns.  The update's object literals
    name the columns [order_id]/[product_id] where [create] and the tests
    use [orderId]/[productId]; the model assumes the (unpublished)
    [OrderItemModel] maps them to the same columns.

    ** Not modelled
    The ORM and SQLite internals (SQL text, connection handling, model
    definitions and schema synchronisation); the customer and product
    repositories beyond the one [create] each the tests call: their
    sources are not in the repository and the specification describes
    none of their methods, so a model of them would be invented rather
    than translated; JavaScript floating point beyond the safe integers;
    the database's own scheduling of statements inside concurrent
    transactions (a transaction is one turn, as section 5 states);
    cancellation and timeouts, which the specification excludes.

    ** Open directions
    The serializability of calls in flight, which needs a model of the
    database's isolation inside [update]'s transaction that the sources
    do not give; [findAll] read between the turns of several [create]s.
    Everything else order.repository.ts does is translated: of its 91
    lines only the imports, blank lines and the class's closing brace are
    unmapped. *)

From stdpp Require Import base list sets strings.
From Stdlib Require Import ZArith Lia.

(** ** Results of asynchronous calls

    Every repository method is [async]: its Promise either resolves with a
    value or rejects with an error.  [result E A] is that outcome. *)

Inductive result (E A : Type) : Type :=
  | Ok (a : A)
  | Err (e : E).
Arguments Ok {E A} a.
Arguments Err {E A} e.

Definition is_ok {E A} (r : result E A) : bool :=
  match r with Ok _ => true | Err _ => false end.

(** [result E] is itself an error monad: a synchronous call that throws. *)
#[global] Instance result_ret {E} : MRet (result E) := fun A a => Ok a.
#[global] Instance result_bind {E} : MBind (result E) := fun A B k r =>
  match r with Ok a => k a | Err e => Err e end.

(** ** A state and error monad

    [ST S E A] threads a state [S] (the database and the console) through a
    computation that resolves with an [A] or rejects with an [E].  A rejected
    call keeps the state it reached: the effects already performed are not
    undone, as for a sequence of awaited calls in TypeScript.  Undoing is the
    job of [transaction] (in Persistence.v), which restores the database. *)

Definition ST (S E A : Type) : Type := S -> result E A * S.

Section monad.
Context {S E : Type}.

#[global] Instance ST_ret : MRet (ST S E) := fun A a s => (Ok a, s).

#[global] Instance ST_bind : MBind (ST S E) := fun A B k c s =>
  match c s with
  | (Ok a, s') => k a s'
  | (Err e, s') => (Err e, s')
  end.

(** [throw e]: the Promise rejects with [e]. *)
Definition throw {A} (e : E) : ST S E A := fun s => (Err e, s).

(** [try { c } catch (e) { h(e) }]. *)
Definition catch {A} (c : ST S E A) (h : E -> ST S E A) : ST S E A :=
  fun s =>
    match c s with
    | (Ok a, s') => (Ok a, s')
    | (Err e, s') => h e s'
    end.

Definition gets {A} (f : S -> A) : ST S E A := fun s => (Ok (f s), s).
Definition modify (f : S -> S) : ST S E unit := fun s => (Ok tt, f s).
End monad.

Arguments throw {S E A} e _.
Arguments gets {S E A} f _.
Arguments modify {S E} f _.

(** ** The JavaScript loop [for (const x of xs) acc.push(f(x))]

    The repository rebuilds its entities with this loop; [for_push] is it,
    with the array [acc] passed explicitly. *)

Fixpoint for_push {A B} (f : A -> B) (xs : list A) (acc : list B) : list B :=
  match xs with
  | [] => acc
  | x :: xs' => for_push f xs' (acc ++ [f x])
  end.

Section monad_laws.
Context {S E : Type}.

Lemma run_ret {A} (a : A) s : (mret a : ST S E A) s = (Ok a, s).
Proof. reflexivity. Qed.

Lemma run_bind_Ok {A B} (c : ST S E A) (k : A -> ST S E B) s a s' :
  c s = (Ok a, s') -> (c ≫= k) s = k a s'.
Proof. intros Hc. unfold mbind, ST_bind. by rewrite Hc. Qed.

Lemma run_bind_Err {A B} (c : ST S E A) (k : A -> ST S E B) s e s' :
  c s = (Err e, s') -> (c ≫= k) s = (Err e, s').
Proof. intros Hc. unfold mbind, ST_bind. by rewrite Hc. Qed.

Lemma run_catch_Ok {A} (c : ST S E A) h s a s' :
  c s = (Ok a, s') -> catch c h s = (Ok a, s').
Proof. intros Hc. unfold catch. by rewrite Hc. Qed.

Lemma run_catch_Err {A} (c : ST S E A) h s e s' :
  c s = (Err e, s') -> catch c h s = h e s'.
Proof. intros Hc. unfold catch. by rewrite Hc. Qed.

(** The monad laws, pointwise in the initial state. *)
Lemma bind_ret_l {A B} (a : A) (k : A -> ST S E B) s :
  (mret a ≫= k) s = k a s.
Proof. reflexivity. Qed.

Lemma bind_ret_r {A} (c : ST S E A) s : (c ≫= mret) s = c s.
Proof. unfold mbind, ST_bind. by destruct (c s) as [[] ?]. Qed.

Lemma bind_assoc {A B C} (c : ST S E A) (f : A -> ST S E B)
  (g : B -> ST S E C) s :
  ((c ≫= f) ≫= g) s = (c ≫= (fun a => f a ≫= g)) s.
Proof. unfold mbind, ST_bind. by destruct (c s) as [[] ?]. Qed.
End monad_laws.

(** ** Facts about [for_push] *)

Lemma for_push_app {A B} (f : A -> B) xs acc :
  for_push f xs acc = acc ++ map f xs.
Proof.
  revert acc. induction xs as [|x xs IH]; intros acc; simpl.
  - by rewrite app_nil_r.
  - by rewrite IH, <- app_assoc.
Qed.

Lemma for_push_nil {A B} (f : A -> B) xs : for_push f xs [] = map f xs.
Proof. by rewrite for_push_app. Qed.

(** ** Automation shared by the components *)

Create HintDb repo discriminated.
Create Rewrite HintDb repo_run.
#[export] Hint Rewrite @for_push_nil @run_ret @bind_ret_l : repo_run.

(** [bind_ok] steps over a call whose run computes to [Ok]: the first
    call of a [x ← c; k] in the goal. *)
Ltac bind_ok := erewrite run_bind_Ok; [|reflexivity].

(** ** Lists of rows selected by a key *)

Section filter_facts.
Context {A : Type}.
Implicit Types (l : list A).

Lemma filter_none (P : A -> Prop) `{!forall x, Decision (P x)} l :
  Forall (fun x => ~ P x) l -> filter P l = [].
Proof.
  induction 1 as [|x l Hx _ IH]; [done|]. by rewrite filter_cons_False.
Qed.

Lemma filter_all (P : A -> Prop) `{!forall x, Decision (P x)} l :
  Forall P l -> filter P l = l.
Proof.
  induction 1 as [|x l Hx _ IH]; [done|]. by rewrite filter_cons_True, IH.
Qed.

Context {K : Type} `{!EqDecision K}.

(** The row with key [k], when the keys are unique. *)
Lemma head_filter_key (key : A -> K) l x k :
  NoDup (key <$> l) -> x ∈ l -> key x = k ->
  head (filter (fun y => key y = k) l) = Some x.
Proof.
  induction l as [|y l IH]; [set_solver|].
  rewrite fmap_cons, NoDup_cons. intros [Hy Hnd] Hx <-.
  apply elem_of_cons in Hx as [->|Hx].
  - by rewrite filter_cons_True.
  - rewrite filter_cons_False; [by apply IH|].
    intros Heq. apply Hy. rewrite Heq. by apply list_elem_of_fmap_2.
Qed.

Lemma head_filter_missing (key : A -> K) l k :
  k ∉ key <$> l -> head (filter (fun y => key y = k) l) = None.
Proof.
  intros Hk. rewrite filter_none; [done|]. apply Forall_forall.
  intros x Hx <-. apply Hk. by apply list_elem_of_fmap_2.
Qed.
End filter_facts.

(** [by_decide] proves a decidable proposition about concrete data by
    evaluating its decision procedure. *)
Ltac by_decide := apply (bool_decide_unpack _); vm_compute; exact I.

Lemma head_filter_fmap {A B} (f : A -> B) (P : B -> Prop)
  `{!forall x, Decision (P x)} (l : list A) :
  head (filter P (f <$> l)) = f <$> head (filter (fun x => P (f x)) l).
Proof.
  induction l as [|x l IH]; [done|]. rewrite fmap_cons, !filter_cons.
  by case_decide.
Qed.
