(* ===== verification/Domain.v ===== *)
(** * Domain entities: Address, Customer, Product, OrderItem, Order

    The entity classes (src/domain/entity/*.ts in the original project) are
    not part of this repository's sources; they are modelled from the
    specification (sections 3, 4.1 and 4.2).  Each class is a [Module] with
    its fields as a [Record t], its constructor as [new] and its methods as
    functions; a method that throws returns a [result]. *)

From S2P Require Import Prelude.
From stdpp Require Import base list sets strings.
From Stdlib Require Import ZArith Lia.

Local Open Scope Z_scope.

(** A domain error is a JavaScript [Error] with its message. *)
Inductive DomainError : Type :=
  | ValidationError (message : string).

#[global] Instance DomainError_eq_dec : EqDecision DomainError.
Proof. solve_decision. Defined.

Module Address.
Record t : Type := mk {
  street : string;
  number : Z;
  zip : string;
  city : string }.

#[global] Instance eq_dec : EqDecision t.
Proof. solve_decision. Defined.
End Address.

Module Customer.
Record t : Type := mk {
  id : string;
  name : string;
  address : option Address.t;
  active : bool }.

#[global] Instance eq_dec : EqDecision t.
Proof. solve_decision. Defined.

(** [constructor(id, name)]: validates the id first, then the name; a new
    customer has no address and is not active. *)
Definition new (id name : string) : result DomainError t :=
  if decide (id = "")%string then Err (ValidationError "Id is required")
  else if decide (name = "")%string then Err (ValidationError "Name is required")
  else Ok (mk id name None false).

(** [changeName(name)]: assigns the name (the specification states no
    check here). *)
Definition changeName (c : t) (name : string) : t :=
  mk (id c) name (address c) (active c).

(** [changeAddress(address)] and the [Address] setter. *)
Definition changeAddress (c : t) (a : Address.t) : t :=
  mk (id c) (name c) (Some a) (active c).

(** [activate()]: throws when no address is set. *)
Definition activate (c : t) : result DomainError t :=
  match address c with
  | None => Err (ValidationError "Address is mandatory to activate a customer")
  | Some _ => Ok (mk (id c) (name c) (address c) true)
  end.

Definition deactivate (c : t) : t :=
  mk (id c) (name c) (address c) false.

Definition isActive (c : t) : bool := active c.

(** The methods that change a customer, as messages of a state machine. *)
Inductive op : Type :=
  | ChangeName (n : string)
  | ChangeAddress (a : Address.t)
  | Activate
  | Deactivate.

Definition step (c : t) (o : op) : result DomainError t :=
  match o with
  | ChangeName n => Ok (changeName c n)
  | ChangeAddress a => Ok (changeAddress c a)
  | Activate => activate c
  | Deactivate => Ok (deactivate c)
  end.

(** A customer a program can hold: built by the constructor, then changed
    by calls that did not throw. *)
Inductive reachable : t -> Prop :=
  | reach_new i n c : new i n = Ok c -> reachable c
  | reach_step c o c' : reachable c -> step c o = Ok c' -> reachable c'.

(** The invariant of section 3: a customer has a non-empty id, and an
    active customer has an address. *)
Definition wf (c : t) : Prop :=
  id c <> ""%string /\ (active c = true -> is_Some (address c)).
End Customer.

Module Product.
Record t : Type := mk {
  id : string;
  name : string;
  price : Z }.

#[global] Instance eq_dec : EqDecision t.
Proof. solve_decision. Defined.

(** [constructor(id, name, price)]. *)
Definition new (id name : string) (price : Z) : t := mk id name price.
End Product.

Module OrderItem.
Record t : Type := mk {
  id : string;
  name : string;
  price : Z;
  productId : string;
  quantity : Z }.

#[global] Instance eq_dec : EqDecision t.
Proof. solve_decision. Defined.

(** [constructor(id, name, price, productId, quantity)]. *)
Definition new (id name : string) (price : Z) (productId : string)
  (quantity : Z) : t := mk id name price productId quantity.
End OrderItem.

Module Order.
Record t : Type := mk {
  id : string;
  customerId : string;
  items : list OrderItem.t }.

#[global] Instance eq_dec : EqDecision t.
Proof. solve_decision. Defined.

(** [constructor(id, customerId, items)]: the specification shows no
    validation. *)
Definition new (id customerId : string) (items : list OrderItem.t) : t :=
  mk id customerId items.

(** [total()]: [items.reduce((acc, item) => acc + item.price *
    item.quantity, 0)]. *)
Definition total (o : t) : Z :=
  fold_left (fun acc (it : OrderItem.t) =>
               acc + OrderItem.price it * OrderItem.quantity it)
            (items o) 0.
End Order.

(** ** Reference definition of an order's total

    The specification's "sum of price * quantity over all items", written
    as a structural recursion. *)
Definition line_sum (items : list OrderItem.t) : Z :=
  fold_right (fun it acc => OrderItem.price it * OrderItem.quantity it + acc) 0 items.

(** ** JavaScript numbers

    Prices, quantities and totals are JavaScript numbers.  An integer of
    absolute value at most [Number.MAX_SAFE_INTEGER] is held exactly, and
    the sum or product of two such integers is exact when it is one too. *)
Definition MAX_SAFE_INTEGER : Z := 2 ^ 53 - 1.

Definition safe_integer (z : Z) : Prop := - MAX_SAFE_INTEGER <= z <= MAX_SAFE_INTEGER.

(** The values the accumulator of [total()]'s [reduce] takes, in order,
    from [acc]. *)
Fixpoint reduce_trace (acc : Z) (items : list OrderItem.t) : list Z :=
  match items with
  | [] => [acc]
  | it :: its =>
      acc :: reduce_trace (acc + OrderItem.price it * OrderItem.quantity it) its
  end.

(** * Properties of the entities *)

Section CustomerFacts.
Import Customer.

Lemma new_Ok i n c : new i n = Ok c -> c = mk i n None false /\ wf c.
Proof.
  unfold new, wf. intros Hn. repeat case_decide; simplify_eq; simpl.
  split; [done | split; [done | discriminate]].
Qed.

Lemma step_preserves_wf c o c' : wf c -> step c o = Ok c' -> wf c'.
Proof.
  unfold wf. intros [Hid Hact] Hs.
  destruct o; simpl in Hs; unfold activate in Hs; simplify_eq; simpl;
    try (destruct (address c) eqn:Ha; simplify_eq; simpl; rewrite ?Ha);
    repeat split; eauto; discriminate.
Qed.

(** C22: every customer a program can build and change keeps its invariant:
    the id is non-empty and an active customer has an address. *)
Theorem reachable_wf c : reachable c -> wf c.
Proof.
  induction 1 as [i n c Hn | c o c' _ IH Hs].
  - by apply (new_Ok i n c).
  - by apply (step_preserves_wf c o c').
Qed.
End CustomerFacts.

Section CustomerBehaviour.
Import Customer.

(** C23: the constructor on every branch: it rejects exactly an empty id
    with "Id is required", rejects a non-empty id with an empty name with
    "Name is required", and otherwise builds the customer without an
    address and inactive. *)
Theorem new_spec i n :
  (new i n = Err (ValidationError "Id is required") <-> i = ""%string)
  /\ (new i n = Err (ValidationError "Name is required")
        <-> i <> ""%string /\ n = ""%string)
  /\ (forall c, new i n = Ok c
        <-> i <> ""%string /\ n <> ""%string /\ c = mk i n None false).
Proof.
  unfold new. repeat case_decide; subst; repeat split;
    intros; destruct_and?; simplify_eq; done.
Qed.

(** C24: [activate] fails exactly on a customer without an address; when it
    succeeds the customer is active, and [deactivate] makes it inactive. *)
Theorem activate_spec c :
  (address c = None ->
     activate c = Err (ValidationError "Address is mandatory to activate a customer"))
  /\ (forall a, address c = Some a ->
        exists c', activate c = Ok c' /\ isActive c' = true
                   /\ id c' = id c /\ name c' = name c /\ address c' = Some a)
  /\ isActive (deactivate c) = false.
Proof.
  unfold activate. split; [|split]; [intros -> | intros a -> | ]; eauto 10.
Qed.

(** Finding: the specification's data model requires a non-empty
    name, but [changeName] is specified without a check, so a valid
    customer can be given an empty name. *)
Theorem changeName_empty_reachable :
  exists c, reachable c /\ name c = ""%string.
Proof.
  exists (changeName (mk "1" "Rafael" None false) "").
  split; [|done].
  eapply (reach_step _ (ChangeName "")); [|done].
  by apply (reach_new "1" "Rafael").
Qed.
End CustomerBehaviour.

Section OrderTotal.
Local Definition total_step (acc : Z) (it : OrderItem.t) : Z :=
  acc + OrderItem.price it * OrderItem.quantity it.

Lemma fold_total_acc (its : list OrderItem.t) (a : Z) :
  fold_left total_step its a = a + line_sum its.
Proof.
  revert a. induction its as [|it its IH]; intros a; simpl; [lia|].
  rewrite IH. unfold total_step. lia.
Qed.

(** [Order.total] (a left fold, as [Array.reduce]) is the sum of
    [price * quantity] over the items. *)
Lemma order_total_sum (o : Order.t) : Order.total o = line_sum (Order.items o).
Proof. apply (fold_total_acc _ 0). Qed.

Lemma line_sum_app (l1 l2 : list OrderItem.t) :
  line_sum (l1 ++ l2) = line_sum l1 + line_sum l2.
Proof. induction l1; simpl; lia. Qed.

Lemma line_sum_nonneg (l : list OrderItem.t) :
  Forall (fun it => 0 <= OrderItem.price it /\ 0 <= OrderItem.quantity it) l ->
  0 <= line_sum l.
Proof. induction 1 as [|it l [Hp Hq] _ IH]; simpl; nia. Qed.
End OrderTotal.

Section TotalBounds.
Context (B : Z).

(** Every accumulator value stays within [|acc| + n * B] when each line
    [price * quantity] is at most [B] in absolute value. *)
Lemma reduce_trace_bound (acc : Z) (its : list OrderItem.t) :
  Forall (fun it => Z.abs (OrderItem.price it * OrderItem.quantity it) <= B) its ->
  Forall (fun z => Z.abs z <= Z.abs acc + Z.of_nat (length its) * B)
         (reduce_trace acc its).
Proof.
  revert acc. induction its as [|it its IH]; intros acc Hb; simpl.
  - constructor; [lia | constructor].
  - apply Forall_cons in Hb as [Hit Hb]. constructor.
    + assert (0 <= B) by lia. lia.
    + eapply Forall_impl; [apply IH, Hb|]. intros z Hz. simpl in Hz. lia.
Qed.

Lemma line_sum_bound (its : list OrderItem.t) :
  Forall (fun it => Z.abs (OrderItem.price it * OrderItem.quantity it) <= B) its ->
  Z.abs (line_sum its) <= Z.of_nat (length its) * B.
Proof. induction 1 as [|it its Hit _ IH]; simpl; lia. Qed.
End TotalBounds.

#[export] Hint Rewrite line_sum_app : repo_run.

(** * Witnesses *)

Lemma reachable_wf_witness :
  Customer.reachable (Customer.mk "1" "Rafael" None false) /\
  Customer.wf (Customer.mk "1" "Rafael" None false).
Proof.
  assert (H : Customer.reachable (Customer.mk "1" "Rafael" None false))
    by (apply (Customer.reach_new "1" "Rafael"); reflexivity).
  split; [exact H | apply reachable_wf, H].
Defined.
