(* ===== verification/Persistence.v ===== *)
(** * The persistence boundary: tables, constraints and ORM calls

    The Sequelize models and runtime are external to the repository; this
    file models, from the specification (section 6), what the repository
    relies on: four tables linked by foreign keys, each a list of rows in
    insertion order (the order in which SQLite returns them without an
    ORDER BY), primary keys on [id], and the ORM calls made by
    src/infrastructure/repository/order.repository.ts.  The state of a run
    is a [World]: the database and the console output. *)

From S2P Require Import Prelude Domain.
From stdpp Require Import base list sets strings.
From Stdlib Require Import ZArith Lia.

Set Warnings "-clear-no-such-hyp".
Local Open Scope Z_scope.

(** ** Rows *)

Module CustomerModel.
Record t : Type := mk {
  id : string;
  name : string;
  address : option Address.t;
  active : bool }.
End CustomerModel.

Module ProductModel.
Record t : Type := mk {
  id : string;
  name : string;
  price : Z }.
End ProductModel.

Module OrderModel.
Record t : Type := mk {
  id : string;
  customerId : string;
  total : Z }.

#[global] Instance eq_dec : EqDecision t.
Proof. solve_decision. Defined.
End OrderModel.

(** The columns [order_id] and [product_id] of the [order_items] table are
    the attributes [orderId] and [productId] of the model. *)
Module OrderItemModel.
Record t : Type := mk {
  id : string;
  name : string;
  price : Z;
  productId : string;
  quantity : Z;
  orderId : string }.

#[global] Instance eq_dec : EqDecision t.
Proof. solve_decision. Defined.
End OrderItemModel.

Record DB : Type := mkDB {
  customers : list CustomerModel.t;
  products : list ProductModel.t;
  orders : list OrderModel.t;
  order_items : list OrderItemModel.t }.

Record World : Type := mkWorld {
  db : DB;
  console : list string }.

(** A freshly synchronised database ([sequelize.sync({force: true})]). *)
Definition empty_db : DB := mkDB [] [] [] [].

(** ** Errors a call can reject with *)

Inductive Error : Type :=
  | UniqueConstraintError (table key : string)
  | ForeignKeyConstraintError (table column : string)
  | TypeError (message : string)
  | Thrown (e : DomainError).

#[global] Instance Error_eq_dec : EqDecision Error.
Proof. solve_decision. Defined.

(** The errors the schema's constraints raise. *)
Definition constraint_error (e : Error) : Prop :=
  match e with
  | UniqueConstraintError _ _ | ForeignKeyConstraintError _ _ => True
  | _ => False
  end.

(** The text of [`${error}`]: the error's name and message. *)
Definition error_toString (e : Error) : string :=
  match e with
  | UniqueConstraintError _ _ => "SequelizeUniqueConstraintError: Validation error"
  | ForeignKeyConstraintError _ _ =>
      "SequelizeForeignKeyConstraintError: SQLITE_CONSTRAINT: FOREIGN KEY constraint failed"
  | TypeError m => "TypeError: " +:+ m
  | Thrown (ValidationError m) => "Error: " +:+ m
  end%string.

(** A call against the database. *)
Abbreviation Query A := (ST World Error A).

(** A synchronous call that may throw, inside an asynchronous one. *)
Definition lift_result {A} (r : result DomainError A) : Query A := fun w =>
  match r with
  | Ok a => (Ok a, w)
  | Err e => (Err (Thrown e), w)
  end.

(** ** Keys and constraints *)

Definition customer_ids (d : DB) : list string := CustomerModel.id <$> customers d.
Definition product_ids (d : DB) : list string := ProductModel.id <$> products d.
Definition order_ids (d : DB) : list string := OrderModel.id <$> orders d.
Definition item_ids (d : DB) : list string := OrderItemModel.id <$> order_items d.

Definition set_orders (d : DB) (os : list OrderModel.t) : DB :=
  mkDB (customers d) (products d) os (order_items d).
Definition set_items (d : DB) (its : list OrderItemModel.t) : DB :=
  mkDB (customers d) (products d) (orders d) its.
Definition set_db (w : World) (d : DB) : World := mkWorld d (console w).

(** The constraint an [INSERT INTO order_items] row violates, if any. *)
Definition check_item (d : DB) (r : OrderItemModel.t) : option Error :=
  if bool_decide (OrderItemModel.id r ∈ item_ids d)
  then Some (UniqueConstraintError "order_items" (OrderItemModel.id r))
  else if bool_decide (OrderItemModel.orderId r ∈ order_ids d) then
    if bool_decide (OrderItemModel.productId r ∈ product_ids d) then None
    else Some (ForeignKeyConstraintError "order_items" "product_id")
  else Some (ForeignKeyConstraintError "order_items" "order_id").

(** The constraint an [INSERT INTO orders] row violates, if any. *)
Definition check_order (d : DB) (r : OrderModel.t) : option Error :=
  if bool_decide (OrderModel.id r ∈ order_ids d)
  then Some (UniqueConstraintError "orders" (OrderModel.id r))
  else if bool_decide (OrderModel.customerId r ∈ customer_ids d) then None
  else Some (ForeignKeyConstraintError "orders" "customer_id").

(** ** ORM calls *)

(** One [INSERT] of one row into a table, as [instance.save()] does. *)
Definition insert_item (r : OrderItemModel.t) : Query unit := fun w =>
  match check_item (db w) r with
  | Some e => (Err e, w)
  | None => (Ok tt, set_db w (set_items (db w) (order_items (db w) ++ [r])))
  end.

Definition insert_order (r : OrderModel.t) : Query unit := fun w =>
  match check_order (db w) r with
  | Some e => (Err e, w)
  | None => (Ok tt, set_db w (set_orders (db w) (orders (db w) ++ [r])))
  end.

(** [Promise.all(instances.map(i => i.save()))]: every child insert runs,
    in array order, whatever the others do; the Promise rejects with the
    first failure. *)
Fixpoint save_all (rows : list OrderItemModel.t) : Query unit :=
  match rows with
  | [] => mret tt
  | r :: rs => fun w =>
      match insert_item r w with
      | (Err e, w1) => (Err e, snd (save_all rs w1))
      | (Ok _, w1) => save_all rs w1
      end
  end.

(** The attributes of one associated item in [OrderModel.create(..,
    { include: [{ model: OrderItemModel }] })]; the ORM sets [orderId]. *)
Module OrderItemAttrs.
Record t : Type := mk {
  id : string;
  name : string;
  price : Z;
  productId : string;
  quantity : Z }.
End OrderItemAttrs.

Definition attach (oid : string) (a : OrderItemAttrs.t) : OrderItemModel.t :=
  OrderItemModel.mk (OrderItemAttrs.id a) (OrderItemAttrs.name a)
    (OrderItemAttrs.price a) (OrderItemAttrs.productId a)
    (OrderItemAttrs.quantity a) oid.

(** [OrderModel.create(values, { include })]: the order row is inserted,
    then its items; the calls are not wrapped in a transaction. *)
Definition OrderModel_create (r : OrderModel.t) (items : list OrderItemAttrs.t)
  : Query unit :=
  _ ← insert_order r;
  save_all (attach (OrderModel.id r) <$> items).

(** The rows of one [INSERT] statement with several [VALUES]: the statement
    is atomic, so a violation by any row leaves the table unchanged. *)
Fixpoint insert_rows (d : DB) (rows : list OrderItemModel.t) : result Error DB :=
  match rows with
  | [] => Ok d
  | r :: rs =>
      match check_item d r with
      | Some e => Err e
      | None => insert_rows (set_items d (order_items d ++ [r])) rs
      end
  end.

(** [OrderItemModel.bulkCreate(rows, { transaction })]. *)
Definition OrderItemModel_bulkCreate (rows : list OrderItemModel.t)
  : Query (list OrderItemModel.t) := fun w =>
  match insert_rows (db w) rows with
  | Err e => (Err e, w)
  | Ok d => (Ok rows, set_db w d)
  end.

(** [OrderItemModel.destroy({ where: { order_id: oid } })]: deletes the
    order's items and resolves with their number. *)
Definition OrderItemModel_destroy (oid : string) : Query nat := fun w =>
  let keep := filter (fun r => OrderItemModel.orderId r <> oid) (order_items (db w)) in
  (Ok (length (order_items (db w)) - length keep)%nat,
   set_db w (set_items (db w) keep)).

(** The row [r] after [SET total = t WHERE id = oid]. *)
Definition with_total (oid : string) (t : Z) (r : OrderModel.t) : OrderModel.t :=
  if decide (OrderModel.id r = oid)
  then OrderModel.mk (OrderModel.id r) (OrderModel.customerId r) t
  else r.

(** [OrderModel.update({ total }, { where: { id: oid } })]: resolves with
    the number of rows changed. *)
Definition OrderModel_update_total (oid : string) (total : Z) : Query nat := fun w =>
  (Ok (length (filter (fun r => OrderModel.id r = oid) (orders (db w)))),
   set_db w (set_orders (db w) (with_total oid total <$> orders (db w)))).

(** The items of an order, as [include: [{ model: OrderItemModel }]]
    loads them. *)
Definition items_of (d : DB) (oid : string) : list OrderItemModel.t :=
  filter (fun r => OrderItemModel.orderId r = oid) (order_items d).

(** [OrderModel.findOne({ where: { id }, include })]: [null] when no row
    matches. *)
Definition OrderModel_findOne (oid : string)
  : Query (option (OrderModel.t * list OrderItemModel.t)) :=
  gets (fun w =>
    (fun r => (r, items_of (db w) oid)) <$>
      head (filter (fun r => OrderModel.id r = oid) (orders (db w)))).

(** [OrderModel.findAll({ include })]. *)
Definition OrderModel_findAll : Query (list (OrderModel.t * list OrderItemModel.t)) :=
  gets (fun w => (fun r => (r, items_of (db w) (OrderModel.id r))) <$> orders (db w)).

(** [sequelize.transaction(async (t) => body)]: a managed transaction
    commits when the body resolves; when it rejects, the database is rolled
    back to its state at the start and the error is rethrown. *)
Definition transaction {A} (body : Query A) : Query A := fun w =>
  match body w with
  | (Ok a, w') => (Ok a, w')
  | (Err e, w') => (Err e, set_db w' (db w))
  end.

(** [console.log(s)]. *)
Definition console_log (s : string) : Query unit := fun w =>
  (Ok tt, mkWorld (db w) (console w ++ [s])).

(** [CustomerRepository.create] and [ProductRepository.create], which the
    tests call to fill the referenced tables: one insert each. *)
Definition CustomerRepository_create (c : Customer.t) : Query unit := fun w =>
  if bool_decide (Customer.id c ∈ customer_ids (db w))
  then (Err (UniqueConstraintError "customers" (Customer.id c)), w)
  else (Ok tt, set_db w (mkDB (customers (db w) ++
          [CustomerModel.mk (Customer.id c) (Customer.name c)
             (Customer.address c) (Customer.active c)])
          (products (db w)) (orders (db w)) (order_items (db w)))).

Definition ProductRepository_create (p : Product.t) : Query unit := fun w =>
  if bool_decide (Product.id p ∈ product_ids (db w))
  then (Err (UniqueConstraintError "products" (Product.id p)), w)
  else (Ok tt, set_db w (mkDB (customers (db w)) (products (db w) ++
          [ProductModel.mk (Product.id p) (Product.name p) (Product.price p)])
          (orders (db w)) (order_items (db w)))).

(** ** Well-formedness of the database

    The schema's constraints: unique primary keys in every table, and the
    foreign keys [orders.customer_id], [order_items.order_id] and
    [order_items.product_id] all resolve. *)
Definition db_wf (d : DB) : Prop :=
  NoDup (customer_ids d) /\ NoDup (product_ids d) /\
  NoDup (order_ids d) /\ NoDup (item_ids d) /\
  Forall (fun r => OrderModel.customerId r ∈ customer_ids d) (orders d) /\
  Forall (fun r => OrderItemModel.orderId r ∈ order_ids d) (order_items d) /\
  Forall (fun r => OrderItemModel.productId r ∈ product_ids d) (order_items d).

#[global] Instance db_wf_dec d : Decision (db_wf d).
Proof. unfold db_wf. apply _. Defined.

(** A row [check_item] accepts. *)
Definition item_ok (d : DB) (r : OrderItemModel.t) : Prop :=
  (OrderItemModel.id r ∉ item_ids d) /\ (OrderItemModel.orderId r ∈ order_ids d) /\
  (OrderItemModel.productId r ∈ product_ids d).

(** Rows one [INSERT] can add to [d]: distinct fresh keys, resolved
    foreign keys. *)
Definition insertable (d : DB) (rows : list OrderItemModel.t) : Prop :=
  NoDup (OrderItemModel.id <$> rows) /\ Forall (item_ok d) rows.

#[global] Instance insertable_dec d rows : Decision (insertable d rows).
Proof. unfold insertable, item_ok. apply _. Defined.

(** ** Calls that keep the database well formed

    [preserves_wf c]: from a well-formed database, [c] ends in a
    well-formed database whether it resolves or rejects.  The combinators
    of the monad preserve it, so a repository method inherits it from the
    ORM calls it makes. *)
Definition preserves_wf {A} (c : Query A) : Prop :=
  forall w, db_wf (db w) -> db_wf (db (snd (c w))).

(** * Facts about the ORM calls *)

Section OrmFacts.
Implicit Types (d : DB) (w : World) (r : OrderItemModel.t)
  (rows : list OrderItemModel.t).

Lemma check_item_None d r : check_item d r = None <-> item_ok d r.
Proof. unfold check_item, item_ok. repeat case_bool_decide; naive_solver. Qed.

Lemma item_ok_set_items d l r :
  item_ok (set_items d l) r <->
    (OrderItemModel.id r ∉ OrderItemModel.id <$> l) /\
    (OrderItemModel.orderId r ∈ order_ids d) /\
    (OrderItemModel.productId r ∈ product_ids d).
Proof. done. Qed.

Lemma insertable_cons d r rows :
  insertable d (r :: rows) <->
    item_ok d r /\ insertable (set_items d (order_items d ++ [r])) rows.
Proof.
  unfold insertable. rewrite fmap_cons, NoDup_cons, Forall_cons.
  rewrite !Forall_forall. unfold item_ok, item_ids, set_items; simpl.
  rewrite fmap_app. setoid_rewrite elem_of_app.
  setoid_rewrite list_elem_of_fmap. setoid_rewrite list_elem_of_singleton.
  naive_solver.
Qed.

Lemma set_items_app d l1 l2 :
  set_items (set_items d l1) l2 = set_items d l2.
Proof. done. Qed.

(** A multi-row [INSERT] succeeds exactly on insertable rows, and then
    appends them. *)
Lemma insert_rows_Ok d rows d' :
  insert_rows d rows = Ok d' <->
    insertable d rows /\ d' = set_items d (order_items d ++ rows).
Proof.
  revert d. induction rows as [|r rs IH]; intros d; simpl.
  - rewrite app_nil_r. unfold insertable.
    destruct d; unfold set_items; simpl.
    split; [intros [= <-] | intros [_ ->]]; repeat constructor.
  - rewrite insertable_cons. destruct (check_item d r) eqn:Hc.
    + split; [discriminate|]. intros [[Hok _] _].
      apply check_item_None in Hok. congruence.
    + apply check_item_None in Hc. rewrite IH, set_items_app.
      simpl. rewrite <- app_assoc. naive_solver.
Qed.

Lemma insert_rows_Err d rows :
  ~ insertable d rows -> exists e, insert_rows d rows = Err e.
Proof.
  intros Hn. destruct (insert_rows d rows) as [d'|e] eqn:Hi; [|by eauto].
  apply insert_rows_Ok in Hi. naive_solver.
Qed.
End OrmFacts.

Section WfFacts.
Implicit Types (d : DB) (w : World) (r : OrderItemModel.t)
  (rows : list OrderItemModel.t).

Lemma wf_add_item d r :
  db_wf d -> item_ok d r -> db_wf (set_items d (order_items d ++ [r])).
Proof.
  unfold db_wf, item_ok, item_ids, set_items; simpl. rewrite fmap_app.
  intros (?&?&?&?&?&?&?) (?&?&?). repeat split; try done.
  - apply NoDup_app. split; [done|]. split; [set_solver|]. apply NoDup_singleton.
  - apply Forall_app. by split; [|constructor].
  - apply Forall_app. by split; [|constructor].
Qed.

Lemma wf_insert_rows d rows d' :
  db_wf d -> insert_rows d rows = Ok d' -> db_wf d'.
Proof.
  revert d. induction rows as [|r rs IH]; intros d Hwf; simpl; [by intros [= <-]|].
  destruct (check_item d r) eqn:Hc; [discriminate|].
  apply check_item_None in Hc. apply IH. by apply wf_add_item.
Qed.

Lemma wf_add_order d (r : OrderModel.t) :
  db_wf d -> check_order d r = None -> db_wf (set_orders d (orders d ++ [r])).
Proof.
  unfold check_order. case_bool_decide; [discriminate|].
  case_bool_decide; [|discriminate]. intros (?&?&?&?&?&Hio&?) _.
  unfold db_wf, order_ids, set_orders in *; simpl. rewrite fmap_app.
  repeat split; try done.
  - apply NoDup_app. split; [done|]. split; [set_solver|]. apply NoDup_singleton.
  - apply Forall_app. by split; [|constructor].
  - eapply Forall_impl; [exact Hio|]. set_solver.
Qed.

Lemma wf_filter_items d (P : OrderItemModel.t -> Prop) `{!forall x, Decision (P x)} :
  db_wf d -> db_wf (set_items d (filter P (order_items d))).
Proof.
  unfold db_wf, item_ids, set_items; simpl. intros (?&?&?&Hni&?&Hio&Hip).
  repeat split; try done.
  - eapply sublist_NoDup; [exact Hni|]. apply fmap_sublist, sublist_filter.
  - apply Forall_forall. intros x [_ Hx]%list_elem_of_filter.
    by eapply Forall_forall in Hio.
  - apply Forall_forall. intros x [_ Hx]%list_elem_of_filter.
    by eapply Forall_forall in Hip.
Qed.

Lemma order_ids_map d (f : OrderModel.t -> OrderModel.t) :
  (forall o : OrderModel.t, OrderModel.id (f o) = OrderModel.id o) ->
  order_ids (set_orders d (f <$> orders d)) = order_ids d.
Proof.
  intros Hf. unfold order_ids, set_orders; simpl.
  rewrite <- list_fmap_compose. apply list_fmap_ext. intros ???. apply Hf.
Qed.

Lemma wf_map_orders d (f : OrderModel.t -> OrderModel.t) :
  (forall o : OrderModel.t, OrderModel.id (f o) = OrderModel.id o) ->
  (forall o : OrderModel.t, OrderModel.customerId (f o) = OrderModel.customerId o) ->
  db_wf d -> db_wf (set_orders d (f <$> orders d)).
Proof.
  intros Hid Hc Hwf. pose proof (order_ids_map d f Hid) as Hids.
  unfold db_wf in *. rewrite Hids. destruct Hwf as (?&?&?&?&Hoc&?&?).
  unfold set_orders, customer_ids, product_ids, item_ids in *; simpl.
  repeat split; try done. apply Forall_fmap. eapply Forall_impl; [exact Hoc|].
  intros o Ho. simpl. by rewrite Hc.
Qed.
End WfFacts.

Section PreservesWf.
Implicit Types (w : World) (rows : list OrderItemModel.t).

Lemma pw_ret {A} (a : A) : preserves_wf (mret a).
Proof. by intros w. Qed.

Lemma pw_throw {A} e : preserves_wf (throw e : Query A).
Proof. by intros w. Qed.

Lemma pw_gets {A} (f : World -> A) : preserves_wf (gets f).
Proof. by intros w. Qed.

Lemma pw_bind {A B} (c : Query A) (k : A -> Query B) :
  preserves_wf c -> (forall a, preserves_wf (k a)) -> preserves_wf (c ≫= k).
Proof.
  intros Hc Hk w Hw. specialize (Hc w Hw). unfold mbind, ST_bind.
  destruct (c w) as [[a|e] w']; simpl in *; [by apply Hk | done].
Qed.

Lemma pw_catch {A} (c : Query A) h :
  preserves_wf c -> (forall e, preserves_wf (h e)) -> preserves_wf (catch c h).
Proof.
  intros Hc Hh w Hw. specialize (Hc w Hw). unfold catch.
  destruct (c w) as [[a|e] w']; simpl in *; [done | by apply Hh].
Qed.

Lemma pw_transaction {A} (body : Query A) :
  preserves_wf body -> preserves_wf (transaction body).
Proof.
  intros Hb w Hw. specialize (Hb w Hw). unfold transaction.
  by destruct (body w) as [[a|e] w'].
Qed.

Lemma pw_console_log s : preserves_wf (console_log s).
Proof. by intros w. Qed.

Lemma pw_insert_item r : preserves_wf (insert_item r).
Proof.
  intros w Hw. unfold insert_item. destruct (check_item (db w) r) eqn:Hc; [done|].
  apply check_item_None in Hc. by apply wf_add_item.
Qed.

Lemma pw_insert_order r : preserves_wf (insert_order r).
Proof.
  intros w Hw. unfold insert_order. destruct (check_order (db w) r) eqn:Hc; [done|].
  by apply wf_add_order.
Qed.

Lemma pw_save_all rows : preserves_wf (save_all rows).
Proof.
  induction rows as [|r rs IH]; [apply pw_ret|]. intros w Hw. simpl.
  pose proof (pw_insert_item r w Hw) as H1.
  destruct (insert_item r w) as [[]w1]; simpl in *; by apply IH.
Qed.

Lemma pw_bulkCreate rows : preserves_wf (OrderItemModel_bulkCreate rows).
Proof.
  intros w Hw. unfold OrderItemModel_bulkCreate.
  destruct (insert_rows (db w) rows) eqn:Hi; [|done]. simpl.
  by eapply wf_insert_rows.
Qed.

Lemma pw_destroy oid : preserves_wf (OrderItemModel_destroy oid).
Proof. intros w Hw. by apply wf_filter_items. Qed.

Lemma pw_update_total oid t : preserves_wf (OrderModel_update_total oid t).
Proof.
  intros w Hw. apply wf_map_orders; [intros o; unfold with_total; by case_decide.. | done].
Qed.
End PreservesWf.

#[export] Hint Resolve pw_ret pw_throw pw_gets pw_bind pw_catch pw_transaction
  pw_console_log pw_insert_item pw_insert_order pw_save_all pw_bulkCreate
  pw_destroy pw_update_total : repo.

(** ** Runs of the ORM calls *)

Section Runs.
Implicit Types (d : DB) (w : World) (rows : list OrderItemModel.t).

Lemma set_db_db w : set_db w (db w) = w.
Proof. by destruct w. Qed.

Lemma set_db_twice w d1 d2 : set_db (set_db w d1) d2 = set_db w d2.
Proof. done. Qed.

Lemma db_set_db w d : db (set_db w d) = d.
Proof. done. Qed.

Lemma insert_order_Ok w (r : OrderModel.t) :
  check_order (db w) r = None ->
  insert_order r w = (Ok tt, set_db w (set_orders (db w) (orders (db w) ++ [r]))).
Proof. unfold insert_order. by intros ->. Qed.

(** When the rows are insertable, the [Promise.all] of the child inserts
    resolves and appends them in order. *)
Lemma save_all_Ok w rows :
  insertable (db w) rows ->
  save_all rows w = (Ok tt, set_db w (set_items (db w) (order_items (db w) ++ rows))).
Proof.
  revert w. induction rows as [|r rs IH]; intros w Hins; simpl.
  - rewrite app_nil_r. by destruct w as [[] ?].
  - apply insertable_cons in Hins as [Hok Hins].
    unfold insert_item. rewrite (proj2 (check_item_None _ _) Hok).
    rewrite IH by done. simpl. by rewrite <- app_assoc.
Qed.

(** When they are not, some child insert fails and the [Promise.all]
    rejects. *)
Lemma save_all_Err w rows :
  ~ insertable (db w) rows -> exists e, fst (save_all rows w) = Err e.
Proof.
  revert w. induction rows as [|r rs IH]; intros w Hn; simpl.
  - destruct Hn. split; constructor.
  - unfold insert_item. destruct (check_item (db w) r) as [e|] eqn:Hc; [by exists e|].
    apply IH. simpl. intros Hins. apply Hn, insertable_cons.
    split; [by apply check_item_None|done].
Qed.

Lemma bulkCreate_Ok w rows :
  insertable (db w) rows ->
  OrderItemModel_bulkCreate rows w =
    (Ok rows, set_db w (set_items (db w) (order_items (db w) ++ rows))).
Proof.
  intros Hins. unfold OrderItemModel_bulkCreate.
  by rewrite (proj2 (insert_rows_Ok _ _ _) (conj Hins eq_refl)).
Qed.

Lemma bulkCreate_Err w rows :
  ~ insertable (db w) rows ->
  exists e, OrderItemModel_bulkCreate rows w = (Err e, w).
Proof.
  intros Hn. destruct (insert_rows_Err _ _ Hn) as [e He].
  exists e. unfold OrderItemModel_bulkCreate. by rewrite He.
Qed.

Lemma transaction_Ok {A} (body : Query A) w a w' :
  body w = (Ok a, w') -> transaction body w = (Ok a, w').
Proof. unfold transaction. by intros ->. Qed.

(** A rejected transaction leaves the database as it found it. *)
Lemma transaction_Err {A} (body : Query A) w e w' :
  body w = (Err e, w') -> transaction body w = (Err e, set_db w' (db w)).
Proof. unfold transaction. by intros ->. Qed.
End Runs.

#[export] Hint Rewrite set_db_db set_db_twice db_set_db : repo_run.

Section KeyFacts.
Implicit Types (d : DB) (rows : list OrderItemModel.t).

(** Whether rows can be inserted depends only on the keys in the tables. *)
Lemma insertable_ext d1 d2 rows :
  item_ids d1 = item_ids d2 -> order_ids d1 = order_ids d2 ->
  product_ids d1 = product_ids d2 ->
  insertable d1 rows <-> insertable d2 rows.
Proof. intros Hi Ho Hp. unfold insertable, item_ok. by rewrite Hi, Ho, Hp. Qed.

Lemma with_total_ids oid t (os : list OrderModel.t) :
  OrderModel.id <$> (with_total oid t <$> os) = OrderModel.id <$> os.
Proof.
  rewrite <- list_fmap_compose. apply list_fmap_ext. intros _ r _. simpl.
  unfold with_total. by case_decide.
Qed.
End KeyFacts.

Section ErrorKinds.
Implicit Types (d : DB) (w : World).

Lemma check_item_constraint d r e : check_item d r = Some e -> constraint_error e.
Proof. unfold check_item. repeat case_bool_decide; intros [= <-]; done. Qed.

Lemma check_order_constraint d r e : check_order d r = Some e -> constraint_error e.
Proof. unfold check_order. repeat case_bool_decide; intros [= <-]; done. Qed.

Lemma insert_item_errors r w e : fst (insert_item r w) = Err e -> constraint_error e.
Proof.
  unfold insert_item. destruct (check_item (db w) r) eqn:Hc; [|discriminate].
  intros [= <-]. by eapply check_item_constraint.
Qed.

(** The child inserts of [create] reject only with constraint errors. *)
Lemma save_all_errors rows w e : fst (save_all rows w) = Err e -> constraint_error e.
Proof.
  revert w. induction rows as [|r rs IH]; intros w; simpl; [discriminate|].
  pose proof (insert_item_errors r w) as Hr.
  destruct (insert_item r w) as [[]w1]; simpl in *; [apply IH | intros [= <-]; auto].
Qed.
End ErrorKinds.

Section ReferencedTables.
Implicit Types (w : World).

Lemma pw_customer_create (c : Customer.t) : preserves_wf (CustomerRepository_create c).
Proof.
  intros w Hw. unfold CustomerRepository_create. case_bool_decide as Hin; [done|].
  destruct Hw as (?&?&?&?&Hoc&?&?).
  unfold db_wf, customer_ids in *; simpl. rewrite fmap_app.
  repeat split; try done.
  - apply NoDup_app. split; [done|]. split; [set_solver|]. apply NoDup_singleton.
  - eapply Forall_impl; [exact Hoc|]. set_solver.
Qed.

Lemma pw_product_create (p : Product.t) : preserves_wf (ProductRepository_create p).
Proof.
  intros w Hw. unfold ProductRepository_create. case_bool_decide as Hin; [done|].
  destruct Hw as (?&?&?&?&?&?&Hip).
  unfold db_wf, product_ids in *; simpl. rewrite fmap_app.
  repeat split; try done.
  - apply NoDup_app. split; [done|]. split; [set_solver|]. apply NoDup_singleton.
  - eapply Forall_impl; [exact Hip|]. set_solver.
Qed.
End ReferencedTables.

#[export] Hint Resolve pw_customer_create pw_product_create : repo.
