(* ===== verification/OrderRepository.v ===== *)
(** * The order repository (src/infrastructure/repository/order.repository.ts)

    [OrderRepository] translates the class of the same name method by
    method: the object literals passed to the ORM, the [for ... push] loops
    that rebuild the entities, the transaction of [update] and its
    [try/catch], and the dereference of the result of [findOne]. *)

From S2P Require Import Prelude Domain Persistence.
From stdpp Require Import base list sets strings.
From Stdlib Require Import ZArith Lia.

Set Warnings "-clear-no-such-hyp".
Local Open Scope Z_scope.

(** The contract [OrderRepositoryInterface] (and the generic repository
    interface it extends): every method is asynchronous and may reject. *)
Class RepositoryInterface (T : Type) : Type := {
  repo_create : T -> Query unit;
  repo_update : T -> Query unit;
  repo_find : string -> Query T;
  repo_findAll : Query (list T) }.

Module OrderRepository.

(** The literal of one item in [create]:
    [{ id, name, price, productId, quantity }]. *)
Definition create_item (item : OrderItem.t) : OrderItemAttrs.t :=
  OrderItemAttrs.mk (OrderItem.id item) (OrderItem.name item)
    (OrderItem.price item) (OrderItem.productId item) (OrderItem.quantity item).

(** The values passed to [OrderModel.create]: the order's attributes, with
    [total: entity.total()], and the literals of its items. *)
Definition create_values (entity : Order.t) : OrderModel.t * list OrderItemAttrs.t :=
  (OrderModel.mk (Order.id entity) (Order.customerId entity) (Order.total entity),
   create_item <$> Order.items entity).

(** [create(entity)]: one [OrderModel.create] with the items included. *)
Definition create (entity : Order.t) : Query unit :=
  let values := create_values entity in
  OrderModel_create values.1 values.2.

(** The literal of one item in [update]:
    [{ id, name, price, product_id, quantity, order_id: entity.id }]. *)
Definition update_item (entity : Order.t) (item : OrderItem.t) : OrderItemModel.t :=
  OrderItemModel.mk (OrderItem.id item) (OrderItem.name item)
    (OrderItem.price item) (OrderItem.productId item) (OrderItem.quantity item)
    (Order.id entity).

(** The body of the transaction of [update]: delete the order's items,
    insert the new ones, store the new total. *)
Definition update_body (entity : Order.t) : Query unit :=
  _ ← OrderItemModel_destroy (Order.id entity);
  let items := update_item entity <$> Order.items entity in
  _ ← OrderItemModel_bulkCreate items;
  _ ← OrderModel_update_total (Order.id entity) (Order.total entity);
  mret tt.

(** [update(entity)]: the transaction inside [try]; the [catch] logs the
    error and the method resolves. *)
Definition update (entity : Order.t) : Query unit :=
  catch (transaction (update_body entity))
        (fun error => console_log ("error: " +:+ error_toString error)%string).

(** [new OrderItem(iterator.id, iterator.name, iterator.price,
    iterator.productId, iterator.quantity)]. *)
Definition item_of_model (it : OrderItemModel.t) : OrderItem.t :=
  OrderItem.new (OrderItemModel.id it) (OrderItemModel.name it)
    (OrderItemModel.price it) (OrderItemModel.productId it)
    (OrderItemModel.quantity it).

(** The message of the [TypeError] thrown by [model.items] when
    [findOne] resolved with [null]. *)
Definition null_items_message : string :=
  "Cannot read properties of null (reading 'items')".

(** The loop of [find]: [const items = []; for (const iterator of
    model.items) items.push(new OrderItem(...))]. *)
Definition find_items (model_items : list OrderItemModel.t) : list OrderItem.t :=
  for_push item_of_model model_items [].

(** [find(id)]: [findOne], then the loop over [model.items], then
    [new Order(model.id, model.customerId, items)]. *)
Definition find (id : string) : Query Order.t :=
  model ← OrderModel_findOne id;
  match model with
  | None => throw (TypeError null_items_message)
  | Some (m, model_items) =>
      let items := find_items model_items in
      mret (Order.new (OrderModel.id m) (OrderModel.customerId m) items)
  end.

(** The loop of [findAll]'s callback: [const orderItems = []; for (const
    iterator of order.items) orderItems.push(new OrderItem(...))]. *)
Definition findAll_items (order_items : list OrderItemModel.t) : list OrderItem.t :=
  for_push item_of_model order_items [].

(** The callback of [orders.map] in [findAll]. *)
Definition order_of_model (order : OrderModel.t * list OrderItemModel.t) : Order.t :=
  let orderItems := findAll_items (snd order) in
  Order.new (OrderModel.id (fst order)) (OrderModel.customerId (fst order)) orderItems.

(** [findAll()]. *)
Definition findAll : Query (list Order.t) :=
  orders ← OrderModel_findAll;
  mret (order_of_model <$> orders).

End OrderRepository.

(** [class OrderRepository implements OrderRepositoryInterface]. *)
#[global] Instance OrderRepository_impl : RepositoryInterface Order.t := {
  repo_create := OrderRepository.create;
  repo_update := OrderRepository.update;
  repo_find := OrderRepository.find;
  repo_findAll := OrderRepository.findAll }.

(** The order [find] rebuilds from a row and the items stored for it. *)
Definition order_of_row (d : DB) (m : OrderModel.t) : Order.t :=
  Order.mk (OrderModel.id m) (OrderModel.customerId m)
    (OrderRepository.item_of_model <$> items_of d (OrderModel.id m)).

(** The row [create] inserts into [orders]. *)
Definition order_row (o : Order.t) : OrderModel.t :=
  OrderModel.mk (Order.id o) (Order.customerId o) (Order.total o).

(** The rows of [order_items] that hold the items of [o]. *)
Definition item_rows (o : Order.t) : list OrderItemModel.t :=
  OrderRepository.update_item o <$> Order.items o.

(** What the schema requires of a new order: a fresh id, an existing
    customer, distinct item ids not used by any stored item, existing
    products. *)
Definition can_create (d : DB) (o : Order.t) : Prop :=
  (Order.id o ∉ order_ids d) /\ (Order.customerId o ∈ customer_ids d) /\
  NoDup (OrderItem.id <$> Order.items o) /\
  Forall (fun it => (OrderItem.id it ∉ item_ids d) /\
                    (OrderItem.productId it ∈ product_ids d)) (Order.items o).

#[global] Instance can_create_dec d o : Decision (can_create d o).
Proof. unfold can_create. apply _. Defined.

(** The database after a successful [create]. *)
Definition created_db (d : DB) (o : Order.t) : DB :=
  mkDB (customers d) (products d) (orders d ++ [order_row o])
    (order_items d ++ item_rows o).

(** The database once the rows of order [oid] are deleted. *)
Definition without_items (d : DB) (oid : string) : DB :=
  set_items d (filter (fun r => OrderItemModel.orderId r <> oid) (order_items d)).

(** What the [bulkCreate] of [update] requires: the new rows can be
    inserted once the order's old rows are gone. *)
Definition can_update (d : DB) (o : Order.t) : Prop :=
  insertable (without_items d (Order.id o)) (item_rows o).

#[global] Instance can_update_dec d o : Decision (can_update d o).
Proof. unfold can_update. apply _. Defined.

(** The database after a committed [update]. *)
Definition updated_db (d : DB) (o : Order.t) : DB :=
  mkDB (customers d) (products d)
    (with_total (Order.id o) (Order.total o) <$> orders d)
    (filter (fun r => OrderItemModel.orderId r <> Order.id o) (order_items d)
       ++ item_rows o).

(** Every stored order's total is the sum of its stored items. *)
Definition totals_consistent (d : DB) : Prop :=
  Forall (fun r => OrderModel.total r =
            line_sum (OrderRepository.item_of_model <$> items_of d (OrderModel.id r)))
         (orders d).

#[global] Instance totals_consistent_dec d : Decision (totals_consistent d).
Proof. unfold totals_consistent. apply _. Defined.

(** Concrete worlds for the witnesses: the referenced rows of the tests,
    without and with the order "1" of [create]. *)
Definition sample_refs : DB :=
  mkDB [CustomerModel.mk "123" "Rafael" None false]
       [ProductModel.mk "123" "Name Test" 14] [] [].

Definition sample_order : Order.t :=
  Order.mk "1" "123" [OrderItem.mk "1" "Name Test" 14 "123" 2].

Definition sample_world : World :=
  mkWorld (created_db sample_refs sample_order) [].

(** * Properties of the repository *)

Section ReadFacts.
Import OrderRepository.
Implicit Types (w : World) (o : Order.t) (m : OrderModel.t).

(** Both loops rebuild [map item_of_model] of the rows, in order. *)
Lemma find_items_map l : find_items l = item_of_model <$> l.
Proof. apply for_push_nil. Qed.

Lemma findAll_items_map l : findAll_items l = item_of_model <$> l.
Proof. apply for_push_nil. Qed.

Lemma find_run oid w :
  find oid w =
    match head (filter (fun r => OrderModel.id r = oid) (orders (db w))) with
    | None => (Err (TypeError null_items_message), w)
    | Some m => (Ok (Order.mk (OrderModel.id m) (OrderModel.customerId m)
                       (item_of_model <$> items_of (db w) oid)), w)
    end.
Proof.
  unfold find, OrderModel_findOne, gets, mbind, ST_bind. simpl.
  destruct (head _); simpl; by rewrite ?find_items_map.
Qed.

(** C6: [find] of an id no row has rejects with the [TypeError] of
    dereferencing [null] ([model.items]) and changes nothing. *)
Theorem find_missing oid w :
  oid ∉ order_ids (db w) ->
  find oid w = (Err (TypeError null_items_message), w).
Proof. intros Hm. by rewrite find_run, head_filter_missing. Qed.

(** [find] of a stored order returns its row's id and customer and the
    items stored for it, in table order: the [for ... push] loop rebuilds
    exactly [map item_of_model] of the rows; nothing changes. *)
Lemma find_found w m :
  NoDup (order_ids (db w)) -> m ∈ orders (db w) ->
  find (OrderModel.id m) w = (Ok (order_of_row (db w) m), w).
Proof.
  intros Hnd Hm. rewrite find_run.
  by rewrite (head_filter_key OrderModel.id _ m).
Qed.

Lemma findAll_run w :
  findAll w = (Ok (order_of_row (db w) <$> orders (db w)), w).
Proof.
  unfold findAll, OrderModel_findAll, gets, mbind, ST_bind. simpl.
  rewrite <- list_fmap_compose, run_ret. f_equal. f_equal. apply list_fmap_ext.
  intros _ m _. unfold order_of_model, order_of_row; simpl.
  by rewrite findAll_items_map.
Qed.

(** C8: [findAll] resolves, changes nothing, returns one order per row of
    the [orders] table, and each is what [find] returns for its id. *)
Theorem findAll_find w :
  NoDup (order_ids (db w)) ->
  exists os, findAll w = (Ok os, w) /\ length os = length (orders (db w)) /\
    forall o, o ∈ os -> find (Order.id o) w = (Ok o, w).
Proof.
  intros Hnd. exists (order_of_row (db w) <$> orders (db w)).
  split; [apply findAll_run|]. split; [apply length_fmap|].
  intros o (m & -> & Hm)%list_elem_of_fmap. by apply find_found.
Qed.
End ReadFacts.

Section CreateFacts.
Import OrderRepository.
Implicit Types (w : World) (o : Order.t) (d : DB).

Lemma item_of_update_item o it : item_of_model (update_item o it) = it.
Proof. by destruct it. Qed.

Lemma items_of_item_rows o : item_of_model <$> item_rows o = Order.items o.
Proof.
  unfold item_rows. rewrite <- list_fmap_compose.
  rewrite (list_fmap_ext _ id); [apply list_fmap_id|]. intros. apply item_of_update_item.
Qed.

Lemma item_rows_orderId o :
  Forall (fun r => OrderItemModel.orderId r = Order.id o) (item_rows o).
Proof. unfold item_rows. apply Forall_fmap, Forall_forall. done. Qed.

Lemma item_rows_ids o : OrderItemModel.id <$> item_rows o = OrderItem.id <$> Order.items o.
Proof. unfold item_rows. rewrite <- list_fmap_compose. done. Qed.

(** The rows of an order whose id no row has: none, by the foreign key. *)
Lemma items_of_fresh d oid :
  db_wf d -> oid ∉ order_ids d -> items_of d oid = [].
Proof.
  intros (_&_&_&_&_&Hio&_) Hf. apply filter_none.
  eapply Forall_impl; [exact Hio|]. intros r Hr Heq. apply Hf. cbn in *. by rewrite <- Heq.
Qed.

Lemma can_create_insertable d o :
  can_create d o ->
  insertable (set_orders d (orders d ++ [order_row o])) (item_rows o).
Proof.
  intros (Hfresh & Hcust & Hnd & Hits). split; [by rewrite item_rows_ids|].
  unfold item_rows. apply Forall_fmap. eapply Forall_impl; [exact Hits|].
  intros it [Hid Hp]. unfold item_ok, order_ids; simpl.
  rewrite fmap_app. set_solver.
Qed.

Lemma create_Ok w o :
  can_create (db w) o -> create o w = (Ok tt, set_db w (created_db (db w) o)).
Proof.
  intros Hc. unfold create, create_values, OrderModel_create; cbn [fst snd].
  rewrite (run_bind_Ok _ _ _ tt (set_db w (set_orders (db w) (orders (db w) ++ [order_row o])))).
  - fold (order_row o). rewrite <- (list_fmap_compose create_item).
    rewrite save_all_Ok; [done|]. apply can_create_insertable, Hc.
  - apply insert_order_Ok. destruct Hc as (Hf & Hcu & _).
    unfold check_order. by repeat case_bool_decide.
Qed.

(** The schema's view of a new order: the row is accepted, then its item
    rows are, once the row is stored. *)
Lemma can_create_iff d o :
  can_create d o <->
    check_order d (order_row o) = None /\
    insertable (set_orders d (orders d ++ [order_row o])) (item_rows o).
Proof.
  split.
  - intros Hc. split; [|by apply can_create_insertable].
    destruct Hc as (Hf & Hcu & _). unfold check_order. by repeat case_bool_decide.
  - intros [Hco [Hnd Hits]]. unfold check_order in Hco.
    repeat case_bool_decide; simplify_eq. split; [done|]. split; [done|].
    split; [by rewrite <- item_rows_ids|].
    unfold item_rows in Hits. rewrite Forall_fmap in Hits.
    eapply Forall_impl; [exact Hits|]. intros it (Hid & _ & Hp). by split.
Qed.

Lemma create_Err w o :
  ~ can_create (db w) o -> exists e, fst (create o w) = Err e.
Proof.
  intros Hc. unfold create, create_values, OrderModel_create; cbn [fst snd].
  fold (order_row o). destruct (check_order (db w) (order_row o)) as [e|] eqn:Hco.
  - exists e. unfold mbind, ST_bind, insert_order. by rewrite Hco.
  - erewrite run_bind_Ok; [|by apply insert_order_Ok].
    rewrite <- (list_fmap_compose create_item). apply save_all_Err.
    intros Hins. apply Hc, can_create_iff. by split.
Qed.

Lemma pw_create o : preserves_wf (create o).
Proof. unfold create, create_values, OrderModel_create; cbn [fst snd]. eauto with repo. Qed.

(** The order rebuilt from a stored row after [create]: the new row gives
    back [o], an old row gives back what it gave before. *)
Lemma order_of_row_created d o m :
  db_wf d -> can_create d o -> m ∈ orders d ++ [order_row o] ->
  order_of_row (created_db d o) m =
    if decide (m = order_row o) then o else order_of_row d m.
Proof.
  intros Hwf Hc Hm. unfold order_of_row, items_of; simpl.
  rewrite filter_app. case_decide as Heq; simpl.
  - subst m. cbn [order_row OrderModel.id OrderModel.customerId].
    rewrite (filter_all _ (item_rows o)) by apply item_rows_orderId.
    fold (items_of d (Order.id o)). rewrite items_of_fresh by (done || apply Hc).
    simpl. rewrite items_of_item_rows. by destruct o.
  - rewrite (filter_none _ (item_rows o)), app_nil_r; [done|].
    eapply Forall_impl; [apply item_rows_orderId|]. intros r Hr Hr'.
    apply elem_of_app in Hm as [Hm|Hm%list_elem_of_singleton]; [|done].
    destruct Hc as [Hf _]. apply Hf. cbn in *. rewrite <- Hr, Hr'.
    by apply list_elem_of_fmap_2.
Qed.

(** C1: round trip: on a well-formed database, when the schema accepts the
    order, [create] resolves, and a [find] of its id then returns the
    same order: same id, same customer, the same items in the same
    order. *)
Theorem create_find_roundtrip w o :
  db_wf (db w) -> can_create (db w) o ->
  (_ ← create o; find (Order.id o)) w = (Ok o, set_db w (created_db (db w) o)).
Proof.
  intros Hwf Hc. pose proof (pw_create o w Hwf) as Hwf'.
  rewrite (run_bind_Ok _ _ _ _ _ (create_Ok w o Hc)).
  rewrite (create_Ok w o Hc) in Hwf'. simpl in Hwf'.
  replace (Order.id o) with (OrderModel.id (order_row o)) by done.
  rewrite find_found; [| apply Hwf' | simpl; set_solver].
  rewrite db_set_db, order_of_row_created by (done || set_solver). by case_decide.
Qed.

(** C19: [create] of an order the [orders] table rejects (an id already
    used, or an unknown customer) rejects with that constraint error and
    changes nothing. *)
Theorem create_order_rejected w o e :
  check_order (db w) (order_row o) = Some e -> create o w = (Err e, w).
Proof.
  intros He. unfold create, create_values, OrderModel_create, mbind, ST_bind, insert_order; cbn [fst snd].
  fold (order_row o). by rewrite He.
Qed.
End CreateFacts.

Section UpdateFacts.
Import OrderRepository.
Implicit Types (w : World) (o : Order.t) (d : DB).

Lemma update_body_Ok w o :
  can_update (db w) o ->
  update_body o w = (Ok tt, set_db w (updated_db (db w) o)).
Proof.
  intros Hc. unfold update_body. bind_ok.
  erewrite run_bind_Ok; [|apply bulkCreate_Ok; exact Hc].
  bind_ok. done.
Qed.

Lemma update_body_Err w o :
  ~ can_update (db w) o ->
  exists e, update_body o w = (Err e, set_db w (without_items (db w) (Order.id o))).
Proof.
  intros Hc. destruct (bulkCreate_Err (set_db w (without_items (db w) (Order.id o)))
                        (item_rows o) Hc) as [e He].
  exists e. unfold update_body. bind_ok.
  by erewrite run_bind_Err; [|exact He].
Qed.

(** A committed [update]: the order's rows replaced, its total stored. *)
Lemma update_Ok w o :
  can_update (db w) o -> update o w = (Ok tt, set_db w (updated_db (db w) o)).
Proof.
  intros Hc. unfold update. apply run_catch_Ok, transaction_Ok, update_body_Ok, Hc.
Qed.

(** A rejected transaction: the database as it was, one more line on the
    console, and the method resolves. *)
Lemma update_rejected_run w o :
  ~ can_update (db w) o ->
  exists e, update o w =
    (Ok tt, mkWorld (db w) (console w ++ ["error: " +:+ error_toString e]))%string.
Proof.
  intros Hc. destruct (update_body_Err w o Hc) as [e He]. exists e.
  unfold update. erewrite run_catch_Err; [|apply transaction_Err, He].
  by destruct w.
Qed.

(** C3 (finding): when any step of the transaction fails, the database is
    rolled back, but [update] resolves all the same: the error only
    reaches the console, as [error: ...]; the caller cannot tell the
    update did not happen. *)
Theorem update_failure_swallowed w o :
  ~ can_update (db w) o ->
  exists e, update o w =
    (Ok tt, mkWorld (db w) (console w ++ ["error: " +:+ error_toString e]))%string.
Proof. apply update_rejected_run. Qed.

(** C4: [update] is atomic: it ends either with the database unchanged or
    with all three steps applied (rows deleted, new rows inserted, total
    stored), never in between. *)
Theorem update_atomic w o :
  db (snd (update o w)) = db w \/ db (snd (update o w)) = updated_db (db w) o.
Proof.
  destruct (decide (can_update (db w) o)) as [Hc|Hc].
  - right. by rewrite update_Ok.
  - left. destruct (update_rejected_run w o Hc) as [e ->]. done.
Qed.

Lemma pw_update o : preserves_wf (update o).
Proof. unfold update, update_body. eauto 10 with repo. Qed.

Lemma filter_complement (P : OrderItemModel.t -> Prop) `{!forall x, Decision (P x)} l :
  filter P (filter (fun x => ~ P x) l) = [].
Proof.
  apply filter_none, Forall_forall. intros x Hx. by apply list_elem_of_filter in Hx as [].
Qed.

(** The order rebuilt from a stored row after a committed [update]: the
    updated order's row gives its new items with the stored customer,
    any other row gives what it gave before. *)
Lemma order_of_row_updated d o m :
  order_of_row (updated_db d o) (with_total (Order.id o) (Order.total o) m) =
    if decide (OrderModel.id m = Order.id o)
    then Order.mk (Order.id o) (OrderModel.customerId m) (Order.items o)
    else order_of_row d m.
Proof.
  unfold order_of_row, items_of, with_total; simpl.
  case_decide as Hid; simpl; rewrite filter_app.
  - rewrite Hid, filter_complement, (filter_all _ (item_rows o))
      by apply item_rows_orderId.
    simpl. by rewrite items_of_item_rows.
  - rewrite list_filter_filter_l by (intros r Hr; by rewrite Hr).
    rewrite (filter_none _ (item_rows o)), app_nil_r; [done|].
    eapply Forall_impl; [apply item_rows_orderId|]. intros r Hr Hr'.
    apply Hid. cbn in *. by rewrite <- Hr'.
Qed.

(** C2: when the new items can be stored, [update] replaces the whole item
    set of a stored order: a [find] afterwards returns exactly the new
    items, in order, with the customer already stored, and the stored
    total is the new order's [total()]. *)
Theorem update_then_find w o m :
  db_wf (db w) -> can_update (db w) o -> m ∈ orders (db w) ->
  OrderModel.id m = Order.id o ->
  (_ ← update o; find (Order.id o)) w =
    (Ok (Order.mk (Order.id o) (OrderModel.customerId m) (Order.items o)),
     set_db w (updated_db (db w) o))
  /\ OrderModel.mk (Order.id o) (OrderModel.customerId m) (Order.total o)
       ∈ orders (updated_db (db w) o).
Proof.
  intros Hwf Hc Hm Hid.
  pose proof (pw_update o w Hwf) as Hwf'. rewrite update_Ok in Hwf' by done.
  assert (Hrow : with_total (Order.id o) (Order.total o) m =
                   OrderModel.mk (Order.id o) (OrderModel.customerId m) (Order.total o))
    by (unfold with_total; rewrite Hid; case_decide; congruence).
  assert (Hm' : OrderModel.mk (Order.id o) (OrderModel.customerId m) (Order.total o)
                  ∈ orders (updated_db (db w) o))
    by (rewrite <- Hrow; apply list_elem_of_fmap_2, Hm).
  split; [|done].
  rewrite (run_bind_Ok _ _ _ _ _ (update_Ok w o Hc)).
  replace (Order.id o) with (OrderModel.id (OrderModel.mk (Order.id o)
    (OrderModel.customerId m) (Order.total o))) at 1 by done.
  rewrite find_found; [| apply Hwf' | exact Hm'].
  rewrite db_set_db, <- Hrow, order_of_row_updated. by rewrite decide_True.
Qed.
End UpdateFacts.

Section MissingOrder.
Import OrderRepository.
Implicit Types (w : World) (o : Order.t) (d : DB).

Lemma with_total_other oid t (r : OrderModel.t) :
  OrderModel.id r <> oid -> with_total oid t r = r.
Proof. unfold with_total. by case_decide. Qed.

Lemma can_update_missing d o :
  Order.id o ∉ order_ids d -> can_update d o -> item_rows o = [].
Proof.
  intros Hm [_ Hok]. destruct (item_rows o) as [|r rs] eqn:Hr; [done|].
  pose proof (item_rows_orderId o) as Hid. rewrite Hr in Hid.
  apply Forall_cons in Hok as [(_ & Ho & _) _]. apply Forall_cons in Hid as [Hid _].
  exfalso. apply Hm. rewrite <- Hid. exact Ho.
Qed.

(** C10 (finding): [update] of an order that is not stored resolves and
    leaves the database as it was: with items, the foreign key
    [order_items.order_id] makes the transaction fail and the failure is
    swallowed; with no items, every step affects zero rows. *)
Theorem update_missing_order w o :
  db_wf (db w) -> Order.id o ∉ order_ids (db w) ->
  fst (update o w) = Ok tt /\ db (snd (update o w)) = db w.
Proof.
  intros Hwf Hm. destruct (decide (can_update (db w) o)) as [Hc|Hc].
  - rewrite update_Ok by done. split; [done|]. simpl.
    unfold updated_db. rewrite (can_update_missing _ _ Hm Hc), app_nil_r.
    rewrite (list_fmap_ext _ id), list_fmap_id.
    + fold (without_items (db w) (Order.id o)).
      rewrite filter_all; [by destruct (db w)|].
      destruct Hwf as (_&_&_&_&_&Hio&_). eapply Forall_impl; [exact Hio|].
      intros r Hr Heq. apply Hm. cbn in *. by rewrite <- Heq.
    + intros i r Hr. apply with_total_other. intros Heq. apply Hm.
      rewrite <- Heq. apply list_elem_of_fmap_2. by eapply list_elem_of_lookup_2.
  - destruct (update_rejected_run w o Hc) as [e ->]. done.
Qed.
End MissingOrder.

Section CreateNotAtomic.
Import OrderRepository.
Local Open Scope string_scope.

(** C9 (finding): [create] is not atomic.  When one item of a new order
    is rejected (here its id is already used by another order), the
    order row, with the total of all its items, and the other items stay
    in the database: starting from a well-formed database whose totals
    agree with its items, [create] rejects and leaves a stored order
    whose total is not the sum of its stored items. *)
Theorem create_not_atomic :
  exists w o e,
    db_wf (db w) /\ totals_consistent (db w) /\
    create o w = (Err e, snd (create o w)) /\
    Order.id o ∈ order_ids (db (snd (create o w))) /\
    ~ totals_consistent (db (snd (create o w))).
Proof.
  set (i1 := OrderItem.mk "i1" "Product" 10 "p" 1).
  set (i2 := OrderItem.mk "i2" "Product" 10 "p" 2).
  set (d := mkDB [CustomerModel.mk "c" "Customer" None false]
                 [ProductModel.mk "p" "Product" 10]
                 [OrderModel.mk "1" "c" 10]
                 [update_item (Order.mk "1" "c" [i1]) i1]).
  exists (mkWorld d []), (Order.mk "2" "c" [i1; i2]),
    (UniqueConstraintError "order_items" "i1").
  split; [by_decide|]. split; [by_decide|]. split; [reflexivity|].
  split; [by_decide|].
  intros Hc. apply (bool_decide_pack _) in Hc. by vm_compute in Hc.
Qed.
End CreateNotAtomic.

#[export] Hint Resolve pw_create pw_update : repo.

Section Invariant.
Import OrderRepository.

Lemma pw_find k : preserves_wf (find k).
Proof. intros w Hw. rewrite find_run. by destruct (head _). Qed.

Lemma pw_findAll : preserves_wf findAll.
Proof. intros w Hw. by rewrite findAll_run. Qed.

End Invariant.

#[export] Hint Resolve pw_find pw_findAll : repo.

Section Outcomes.
Import OrderRepository.
Implicit Types (w : World) (o : Order.t).

(** C5: [update] always resolves: whatever the database and the order, the
    Promise it returns never rejects. *)
Theorem update_always_resolves o w : fst (update o w) = Ok tt.
Proof.
  destruct (decide (can_update (db w) o)) as [Hc|Hc].
  - by rewrite update_Ok.
  - by destruct (update_rejected_run w o Hc) as [e ->].
Qed.

(** C11: [create] resolves exactly when the schema accepts the order (a
    fresh id, a stored customer, distinct item ids not used by any stored
    item, stored products); otherwise it rejects. *)
Theorem create_resolves_iff o w : is_ok (fst (create o w)) = bool_decide (can_create (db w) o).
Proof.
  case_bool_decide as Hc.
  - by rewrite create_Ok.
  - by destruct (create_Err w o Hc) as [e ->].
Qed.

(** C21: JavaScript number bounds: when every line [price * quantity] of an
    order is at most [B] in absolute value and [n * B] fits in
    [Number.MAX_SAFE_INTEGER] ([n] items), every value of the accumulator
    of [total()]'s [reduce], every line, and the total [create] stores
    are safe integers, so the floating-point computation is exact. *)
Theorem stored_total_safe o B :
  Forall (fun it => Z.abs (OrderItem.price it * OrderItem.quantity it) <= B) (Order.items o) ->
  Z.of_nat (length (Order.items o)) * B <= MAX_SAFE_INTEGER ->
  Forall (fun it => safe_integer (OrderItem.price it * OrderItem.quantity it)) (Order.items o) /\
  Forall safe_integer (reduce_trace 0 (Order.items o)) /\
  safe_integer (OrderModel.total (create_values o).1).
Proof.
  intros Hb Hn. unfold safe_integer. split; [|split].
  - apply Forall_forall. intros it Hit.
    pose proof (proj1 (Forall_forall _ _) Hb it Hit) as Hit'. simpl in Hit'.
    assert (1 <= Z.of_nat (length (Order.items o))).
    { destruct (Order.items o); [set_solver | simpl; lia]. }
    nia.
  - eapply Forall_impl; [apply (reduce_trace_bound B 0), Hb|]. intros z Hz. simpl in Hz. lia.
  - simpl. rewrite order_total_sum. pose proof (line_sum_bound B _ Hb). lia.
Qed.
End Outcomes.

(** * Witnesses *)

Section Witnesses.
Import OrderRepository.
Local Open Scope string_scope.

Lemma find_missing_witness :
  ("9" ∉ order_ids (db sample_world)) /\
  find "9" sample_world = (Err (TypeError null_items_message), sample_world).
Proof. split; [by_decide | apply find_missing; by_decide]. Defined.

Lemma findAll_find_witness :
  NoDup (order_ids (db sample_world)) /\
  exists os, findAll sample_world = (Ok os, sample_world) /\
    length os = length (orders (db sample_world)) /\
    forall o, o ∈ os -> find (Order.id o) sample_world = (Ok o, sample_world).
Proof. split; [by_decide | apply findAll_find; by_decide]. Defined.

Lemma create_find_roundtrip_witness :
  db_wf sample_refs /\ can_create sample_refs sample_order /\
  (_ ← create sample_order; find (Order.id sample_order)) (mkWorld sample_refs []) =
    (Ok sample_order, mkWorld (created_db sample_refs sample_order) []).
Proof.
  split; [by_decide|]. split; [by_decide|].
  apply (create_find_roundtrip (mkWorld sample_refs [])); by_decide.
Defined.

Lemma create_order_rejected_witness :
  check_order (db sample_world) (order_row sample_order) =
    Some (UniqueConstraintError "orders" "1") /\
  create sample_order sample_world =
    (Err (UniqueConstraintError "orders" "1"), sample_world).
Proof. split; [reflexivity | apply create_order_rejected; reflexivity]. Defined.

Lemma update_failure_swallowed_witness :
  let o := Order.mk "1" "123" [OrderItem.mk "1" "Name Test" 14 "999" 2] in
  ~ can_update (db sample_world) o /\
  exists e, update o sample_world =
    (Ok tt, mkWorld (db sample_world)
              (console sample_world ++ ["error: " +:+ error_toString e])).
Proof. intros o. split; [by_decide | apply update_failure_swallowed; by_decide]. Defined.

Lemma update_then_find_witness :
  let o := Order.mk "1" "123" [OrderItem.mk "2" "Name Test" 20 "123" 3] in
  let m := order_row sample_order in
  db_wf (db sample_world) /\ can_update (db sample_world) o /\
  m ∈ orders (db sample_world) /\ OrderModel.id m = Order.id o /\
  ((_ ← update o; find (Order.id o)) sample_world =
     (Ok (Order.mk (Order.id o) (OrderModel.customerId m) (Order.items o)),
      set_db sample_world (updated_db (db sample_world) o))
   /\ OrderModel.mk (Order.id o) (OrderModel.customerId m) (Order.total o)
        ∈ orders (updated_db (db sample_world) o)).
Proof.
  intros o m. split; [by_decide|]. split; [by_decide|]. split; [by_decide|].
  split; [reflexivity|]. apply update_then_find; [by_decide | by_decide | by_decide | reflexivity].
Defined.

Lemma update_missing_order_witness :
  let o := Order.mk "7" "123" [OrderItem.mk "2" "Name Test" 20 "123" 3] in
  db_wf (db sample_world) /\ (Order.id o ∉ order_ids (db sample_world)) /\
  fst (update o sample_world) = Ok tt /\
  db (snd (update o sample_world)) = db sample_world.
Proof.
  intros o. split; [by_decide|]. split; [by_decide|].
  apply update_missing_order; by_decide.
Defined.
Lemma stored_total_safe_witness :
  Forall (fun it => Z.abs (OrderItem.price it * OrderItem.quantity it) <= 28)
    (Order.items sample_order) /\
  Z.of_nat (length (Order.items sample_order)) * 28 <= MAX_SAFE_INTEGER /\
  (Forall (fun it => safe_integer (OrderItem.price it * OrderItem.quantity it))
     (Order.items sample_order) /\
   Forall safe_integer (reduce_trace 0 (Order.items sample_order)) /\
   safe_integer (OrderModel.total (create_values sample_order).1)).
Proof.
  assert (Hb : Forall (fun it => Z.abs (OrderItem.price it * OrderItem.quantity it) <= 28)
                 (Order.items sample_order)) by (constructor; [simpl; lia | constructor]).
  assert (Hn : Z.of_nat (length (Order.items sample_order)) * 28 <= MAX_SAFE_INTEGER)
    by (simpl; unfold MAX_SAFE_INTEGER; lia).
  split; [exact Hb|]. split; [exact Hn|]. exact (stored_total_safe sample_order 28 Hb Hn).
Defined.
End Witnesses.
