(* ===== verification/RepositorySpec.v ===== *)
(** * The repository contract and its refinement by the order repository

    [RepositoryContract] states what a repository promises its clients,
    in terms of an abstract store: the list of entities [findAll] returns.
    The order repository of OrderRepository.v is an instance, which is the
    refinement proof: each method acts on the abstraction of the database
    as the abstract operation says.  Clients are proved against the class
    (the [findAll] count after a sequence of [create]s).  Programs are
    sequences of [call]s run by [exec]; [exec_wf] records that each call
    keeps the schema's constraints, which the invariants of Totals.v and
    Specified.v build on. *)

From S2P Require Import Prelude Domain Persistence OrderRepository.
From stdpp Require Import base list sets strings.
From Stdlib Require Import ZArith Lia.

Set Warnings "-clear-no-such-hyp".

(** ** The abstract store *)

(** The stored entity with key [k]. *)
Definition abs_lookup {T} (key : T -> string) (k : string) (s : list T) : option T :=
  head (filter (fun x => key x = k) s).

(** Every stored entity with key [k] replaced by [f] of it. *)
Definition abs_replace {T} (key : T -> string) (f : T -> T) (k : string)
  (s : list T) : list T :=
  (fun y => if decide (key y = k) then f y else y) <$> s.

(** ** The contract *)

Class RepositoryContract (T : Type) `{!RepositoryInterface T} : Type := {
  rc_key : T -> string;
  rc_state : World -> list T;
  rc_inv : World -> Prop;
  rc_accepts : World -> T -> Prop;
  rc_updatable : World -> T -> Prop;
  rc_replace : T -> T -> T;

  rc_findAll w : repo_findAll w = (Ok (rc_state w), w);
  rc_find_found w k x :
    abs_lookup rc_key k (rc_state w) = Some x -> repo_find k w = (Ok x, w);
  rc_find_missing w k :
    abs_lookup rc_key k (rc_state w) = None -> exists e, repo_find k w = (Err e, w);
  rc_accepts_fresh w x : rc_accepts w x -> rc_key x ∉ rc_key <$> rc_state w;
  rc_create w x : rc_inv w -> rc_accepts w x ->
    fst (repo_create x w) = Ok tt /\
    rc_state (snd (repo_create x w)) = rc_state w ++ [x];
  rc_update w x : rc_updatable w x ->
    fst (repo_update x w) = Ok tt /\
    rc_state (snd (repo_update x w)) =
      abs_replace rc_key (rc_replace x) (rc_key x) (rc_state w);
  rc_update_rejected w x : ~ rc_updatable w x ->
    fst (repo_update x w) = Ok tt /\ rc_state (snd (repo_update x w)) = rc_state w;
  rc_inv_create w x : rc_inv w -> rc_inv (snd (repo_create x w));
  rc_inv_update w x : rc_inv w -> rc_inv (snd (repo_update x w)) }.

Arguments rc_key {T _ _} _.
Arguments rc_state {T _ _} _.

(** ** A client: [for (const x of xs) await repository.create(x)] *)

Fixpoint create_all {T} `{!RepositoryInterface T} (xs : list T) : Query unit :=
  match xs with
  | [] => mret tt
  | x :: xs' => _ ← repo_create x; create_all xs'
  end.

(** Each entity accepted in the state the previous [create]s left. *)
Fixpoint accepted_all {T} `{RepositoryContract T} (w : World) (xs : list T) : Prop :=
  match xs with
  | [] => True
  | x :: xs' => rc_accepts w x /\ accepted_all (snd (repo_create x w)) xs'
  end.

(** ** The order repository's abstraction *)

(** The orders the database holds, as [findAll] rebuilds them. *)
Definition abs_orders (d : DB) : list Order.t := order_of_row d <$> orders d.

(** How [update] changes a stored order: the new items, the old customer. *)
Definition order_replace (o old : Order.t) : Order.t :=
  Order.mk (Order.id o) (Order.customerId old) (Order.items o).

(** ** Steps of a program using the repositories *)

Inductive call : Type :=
  | CreateCustomer (c : Customer.t)
  | CreateProduct (p : Product.t)
  | CreateOrder (o : Order.t)
  | UpdateOrder (o : Order.t)
  | FindOrder (id : string)
  | FindAllOrders.

Definition exec (c : call) (w : World) : World :=
  match c with
  | CreateCustomer cu => snd (CustomerRepository_create cu w)
  | CreateProduct p => snd (ProductRepository_create p w)
  | CreateOrder o => snd (OrderRepository.create o w)
  | UpdateOrder o => snd (OrderRepository.update o w)
  | FindOrder i => snd (OrderRepository.find i w)
  | FindAllOrders => snd (OrderRepository.findAll w)
  end.

(** * Clients proved against the contract *)

Section Client.
Context {T : Type} `{RepositoryContract T}.

Lemma create_all_spec w xs :
  rc_inv w -> accepted_all w xs ->
  fst (create_all xs w) = Ok tt /\
  rc_state (snd (create_all xs w)) = rc_state w ++ xs /\
  rc_inv (snd (create_all xs w)).
Proof.
  revert w. induction xs as [|x xs IH]; intros w Hinv Hacc; simpl.
  - by rewrite app_nil_r.
  - destruct Hacc as [Hx Hacc].
    destruct (rc_create w x Hinv Hx) as [Hok Hst].
    pose proof (rc_inv_create w x Hinv) as Hinv'.
    destruct (repo_create x w) as [r w1] eqn:Hc; simpl in *; subst r.
    rewrite (run_bind_Ok _ _ _ _ _ Hc).
    destruct (IH w1 Hinv' Hacc) as (? & -> & ?).
    by rewrite Hst, <- app_assoc.
Qed.

(** After a sequence of accepted [create]s, [findAll] returns the stored
    entities followed by the new ones. *)
Lemma findAll_after_create_all w xs :
  rc_inv w -> accepted_all w xs ->
  (_ ← create_all xs; repo_findAll) w =
    (Ok (rc_state w ++ xs), snd (create_all xs w)).
Proof.
  intros Hinv Hacc. destruct (create_all_spec w xs Hinv Hacc) as (Hok & Hst & _).
  destruct (create_all xs w) as [r w1] eqn:Hc; simpl in *; subst r.
  rewrite (run_bind_Ok _ _ _ _ _ Hc), rc_findAll. by rewrite Hst.
Qed.
End Client.

(** * The order repository implements the contract *)

Section OrderRefinement.
Import OrderRepository.
Implicit Types (w : World) (o : Order.t) (d : DB).

Lemma abs_orders_ids d : Order.id <$> abs_orders d = order_ids d.
Proof.
  unfold abs_orders, order_ids. rewrite <- list_fmap_compose. done.
Qed.

Lemma abs_created d o :
  db_wf d -> can_create d o -> abs_orders (created_db d o) = abs_orders d ++ [o].
Proof.
  intros Hwf Hc. unfold abs_orders at 1. simpl. rewrite fmap_app. simpl.
  rewrite order_of_row_created, decide_True by (done || set_solver).
  f_equal. apply list_fmap_ext. intros i m Hm.
  apply list_elem_of_lookup_2 in Hm.
  rewrite order_of_row_created by (done || set_solver).
  rewrite decide_False; [done|]. intros ->. destruct Hc as [Hf _].
  apply Hf. change (Order.id o) with (OrderModel.id (order_row o)).
  by apply list_elem_of_fmap_2.
Qed.

Lemma abs_updated d o :
  abs_orders (updated_db d o) =
    abs_replace Order.id (order_replace o) (Order.id o) (abs_orders d).
Proof.
  unfold abs_orders, abs_replace. simpl. rewrite <- !list_fmap_compose.
  apply list_fmap_ext. intros i m _. simpl. rewrite order_of_row_updated.
  by case_decide.
Qed.

Lemma find_abs w k :
  find k w =
    match abs_lookup Order.id k (abs_orders (db w)) with
    | Some o => (Ok o, w)
    | None => (Err (TypeError null_items_message), w)
    end.
Proof.
  rewrite find_run. unfold abs_lookup, abs_orders. rewrite head_filter_fmap.
  simpl. destruct (head (filter _ (orders (db w)))) as [m|] eqn:Hm; [|done].
  simpl. f_equal. f_equal. unfold order_of_row. f_equal.
  apply head_Some_elem_of, list_elem_of_filter in Hm as [Hid _]. by rewrite Hid.
Qed.

Lemma update_abs_rejected w o :
  ~ can_update (db w) o -> fst (update o w) = Ok tt /\ db (snd (update o w)) = db w.
Proof. intros Hc. by destruct (update_rejected_run w o Hc) as [e ->]. Qed.
End OrderRefinement.

#[global] Instance OrderRepository_contract : RepositoryContract Order.t.
Proof.
  refine {|
    rc_key := Order.id;
    rc_state w := abs_orders (db w);
    rc_inv w := db_wf (db w);
    rc_accepts w o := can_create (db w) o;
    rc_updatable w o := can_update (db w) o;
    rc_replace := order_replace |}.
  - intros w. cbn. rewrite findAll_run. done.
  - intros w k x Hx. cbn. by rewrite find_abs, Hx.
  - intros w k Hx. cbn. rewrite find_abs, Hx. by eexists.
  - intros w x [Hf _]. by rewrite abs_orders_ids.
  - intros w x Hinv Hx. cbn. rewrite create_Ok by done. split; [done|].
    by apply abs_created.
  - intros w x Hx. cbn. rewrite update_Ok by done. split; [done|]. apply abs_updated.
  - intros w x Hx. cbn. by destruct (update_abs_rejected w x Hx) as [-> ->].
  - intros w x Hinv. by apply pw_create.
  - intros w x Hinv. by apply pw_update.
Defined.

Section RefinementTheorems.
Import OrderRepository.
Implicit Types (w : World) (o : Order.t).

(** C7: refinement: on the abstraction [abs_orders] (the list of orders
    the database holds), [findAll] returns the abstract store, [find] is
    the abstract lookup (or the [TypeError] when it is absent), an
    accepted [create] appends the order, and [update] replaces the
    stored order's items (keeping its customer) when its rows can be
    stored and leaves the store as it was otherwise, resolving in both
    cases. *)
Theorem order_repository_refinement w o k :
  findAll w = (Ok (abs_orders (db w)), w) /\
  find k w = match abs_lookup Order.id k (abs_orders (db w)) with
             | Some x => (Ok x, w)
             | None => (Err (TypeError null_items_message), w)
             end /\
  (db_wf (db w) -> can_create (db w) o ->
     fst (create o w) = Ok tt /\
     abs_orders (db (snd (create o w))) = abs_orders (db w) ++ [o]) /\
  (can_update (db w) o ->
     fst (update o w) = Ok tt /\
     abs_orders (db (snd (update o w))) =
       abs_replace Order.id (order_replace o) (Order.id o) (abs_orders (db w))) /\
  (~ can_update (db w) o ->
     fst (update o w) = Ok tt /\ abs_orders (db (snd (update o w))) = abs_orders (db w)).
Proof.
  split; [apply findAll_run|]. split; [apply find_abs|]. split; [|split].
  - intros Hwf Hc. rewrite create_Ok by done. split; [done|]. by apply abs_created.
  - intros Hc. rewrite update_Ok by done. split; [done|]. apply abs_updated.
  - intros Hc. destruct (update_abs_rejected w o Hc) as [-> ->]. done.
Qed.

(** C20: a client that awaits [create] for each order of a list, each
    accepted by the schema in turn, then calls [findAll], gets the
    orders stored before followed by the new ones: exactly
    [length os] more entries (section 8: [findAll] after creating N
    orders returns N entries). *)
Theorem orders_findAll_after_creates w os :
  db_wf (db w) -> accepted_all w os ->
  exists all, (_ ← create_all os; findAll) w = (Ok all, snd (create_all os w)) /\
    all = abs_orders (db w) ++ os /\
    length all = (length (orders (db w)) + length os)%nat.
Proof.
  intros Hwf Hacc. exists (abs_orders (db w) ++ os).
  split; [exact (findAll_after_create_all (T := Order.t) w os Hwf Hacc)|].
  split; [done|].
  rewrite length_app. unfold abs_orders. by rewrite length_fmap.
Qed.
End RefinementTheorems.

Section ExecFacts.
Lemma exec_wf c w : db_wf (db w) -> db_wf (db (exec c w)).
Proof.
  intros Hw. destruct c as [cu|p|o|o|k|]; simpl; revert w Hw.
  - apply pw_customer_create.
  - apply pw_product_create.
  - apply pw_create.
  - apply pw_update.
  - apply pw_find.
  - apply pw_findAll.
Qed.

End ExecFacts.

(** * Witnesses *)

Section Witnesses.
Local Open Scope string_scope.

Lemma orders_findAll_after_creates_witness :
  let o2 := Order.mk "2" "123" [OrderItem.mk "2" "Name Test" 14 "123" 1] in
  let w := mkWorld sample_refs [] in
  db_wf (db w) /\ accepted_all w [sample_order; o2] /\
  exists all, (_ ← create_all [sample_order; o2]; OrderRepository.findAll) w =
                (Ok all, snd (create_all [sample_order; o2] w)) /\
    all = (abs_orders (db w) ++ [sample_order; o2])%list /\
    length all = (length (orders (db w)) + 2)%nat.
Proof.
  intros o2 w.
  assert (Hacc : accepted_all w [sample_order; o2]).
  { cbn [accepted_all]. split; [cbn; by_decide|]. split; [cbn; by_decide | exact I]. }
  split; [by_decide|]. split; [exact Hacc|].
  apply orders_findAll_after_creates; [by_decide | exact Hacc].
Defined.

End Witnesses.
