(* ===== verification/Totals.v ===== *)
(** * The aggregate's total over runs of a program

    An order and its items are one aggregate: the row of [orders] stores
    [total()] of the items it was saved with.  [totals_consistent] (in
    OrderRepository.v) says every stored total is the sum of the stored
    items.  This file shows that the methods keep it on every run of a
    program whose [create]s the schema accepts ([sound_run]): [update]
    keeps it whether its transaction commits or rolls back, an accepted
    [create] adds a consistent order, the other calls do not touch the
    orders.  [create_not_atomic] (OrderRepository.v) and
    [create_update_interleaved] (Concurrency.v) show the two ways it is
    lost: a rejected [create], and a [create] interleaved with an
    [update]. *)

From S2P Require Import Prelude Domain Persistence OrderRepository RepositorySpec.
From stdpp Require Import base list sets strings.
From Stdlib Require Import ZArith Lia.

Set Warnings "-clear-no-such-hyp".
Local Open Scope Z_scope.

(** The calls whose effect the schema accepts in full: a [create] of an
    order is accepted when [can_create] holds (a rejected [create] may
    leave part of the order behind); every other call is complete
    whether it resolves or rejects. *)
Definition accepted (c : call) (w : World) : Prop :=
  match c with
  | CreateOrder o => can_create (db w) o
  | _ => True
  end.

#[global] Instance accepted_dec c w : Decision (accepted c w).
Proof. destruct c; simpl; apply _. Defined.

(** The worlds of a program started on an empty database whose calls are
    all accepted. *)
Inductive sound_run : World -> Prop :=
  | sound_init : sound_run (mkWorld empty_db [])
  | sound_exec w c : sound_run w -> accepted c w -> sound_run (exec c w).

(** The program of the update test: the customer, the product, the order,
    then an update of the order with a new item. *)
Definition update_test_run : World :=
  exec (UpdateOrder (Order.mk "1" "123" [OrderItem.mk "2" "Name Test" 20 "123" 3]))
    (exec (CreateOrder (Order.mk "1" "123" [OrderItem.mk "1" "Name Test" 14 "123" 2]))
      (exec (CreateProduct (Product.mk "123" "Name Test" 14))
        (exec (CreateCustomer (Customer.mk "123" "Rafael" None false))
          (mkWorld empty_db [])))).

Section TotalsFacts.
Import OrderRepository.
Implicit Types (d : DB) (o : Order.t) (w : World).

(** [totals_consistent], row by row: the total [find] rebuilds. *)
Lemma totals_consistent_rows d :
  totals_consistent d <->
  Forall (fun r => OrderModel.total r = line_sum (Order.items (order_of_row d r))) (orders d).
Proof. done. Qed.

Lemma totals_created d o :
  db_wf d -> can_create d o -> totals_consistent d ->
  totals_consistent (created_db d o).
Proof.
  intros Hwf Hc Ht. apply totals_consistent_rows. apply Forall_forall. intros m Hm.
  rewrite order_of_row_created by done. case_decide as Hmo.
  - subst m. apply order_total_sum.
  - apply elem_of_app in Hm as [Hm|Hm%list_elem_of_singleton]; [|done].
    rewrite totals_consistent_rows, Forall_forall in Ht. by apply Ht.
Qed.

Lemma totals_updated d o : totals_consistent d -> totals_consistent (updated_db d o).
Proof.
  intros Ht. apply totals_consistent_rows. apply Forall_fmap, Forall_forall.
  intros m Hm. unfold compose. rewrite order_of_row_updated. case_decide as Hid.
  - unfold with_total. rewrite decide_True by done. apply (order_total_sum o).
  - unfold with_total. rewrite decide_False by done.
    rewrite totals_consistent_rows, Forall_forall in Ht. by apply Ht.
Qed.

Lemma totals_exec c w :
  db_wf (db w) -> accepted c w -> totals_consistent (db w) ->
  totals_consistent (db (exec c w)).
Proof.
  intros Hwf Hc Ht. destruct c as [cu|p|o|o|k|]; cbn [exec accepted] in Hc |- *.
  - unfold CustomerRepository_create. by case_bool_decide.
  - unfold ProductRepository_create. by case_bool_decide.
  - rewrite create_Ok by done. by apply totals_created.
  - destruct (decide (can_update (db w) o)) as [Hu|Hu].
    + rewrite update_Ok by done. by apply totals_updated.
    + by destruct (update_abs_rejected w o Hu) as [_ ->].
  - rewrite find_run. by destruct (head _).
  - by rewrite findAll_run.
Qed.
End TotalsFacts.

Section SoundRuns.
Import OrderRepository.

Lemma sound_run_inv w : sound_run w -> db_wf (db w) /\ totals_consistent (db w).
Proof.
  induction 1 as [|w c _ [Hwf Ht] Hc].
  - split; [by_decide|constructor].
  - split; [by apply exec_wf|by apply totals_exec].
Qed.

(** C12: on every run of a program from an empty database whose [create]s
    the schema accepts (any other call may resolve or reject), every
    stored order's total is the sum of its stored items: the [total()]
    of the order [find] rebuilds is the stored total. *)
Theorem sound_run_totals w :
  sound_run w ->
  totals_consistent (db w) /\
  Forall (fun m => Order.total (order_of_row (db w) m) = OrderModel.total m) (orders (db w)).
Proof.
  intros Hw. destruct (sound_run_inv w Hw) as [_ Ht]. split; [done|].
  apply totals_consistent_rows in Ht. eapply Forall_impl; [exact Ht|].
  intros m Hm. by rewrite order_total_sum.
Qed.
End SoundRuns.

(** * Witnesses *)

Lemma sound_run_totals_witness :
  sound_run update_test_run /\
  totals_consistent (db update_test_run) /\
  Forall (fun m => Order.total (order_of_row (db update_test_run) m) = OrderModel.total m)
    (orders (db update_test_run)).
Proof.
  assert (Hw : sound_run update_test_run).
  { repeat (apply sound_exec; [|by_decide]). apply sound_init. }
  split; [exact Hw|]. exact (sound_run_totals _ Hw).
Defined.
