(* ===== verification/Specified.v ===== *)
(** * The repository the specification requires, and how the source differs

    Sections 4.3, 7 and 9 of the specification fix behaviours the source
    does not have: [update] must reject with the failure once the
    transaction has rolled back (the source logs it and resolves); [find]
    must report an absent order explicitly (the source dereferences
    [null]); and [create] inserts the order and its items "in one
    persistence call", the aggregate being "always persisted together"
    (the source's [OrderModel.create] is not atomic).  [Specified] is the
    repository with those three changes and nothing else; [SpecContract]
    is the contract of section 4.3 over the abstract store [abs_orders].
    The theorems show that [Specified] meets the contract, and that every
    run of a program on [Specified] keeps the schema's constraints and
    every stored total equal to the sum of its items, which a rejected
    [create] of the source breaks ([create_not_atomic]). *)

From S2P Require Import Prelude Domain Persistence OrderRepository RepositorySpec Totals.
From stdpp Require Import base list sets strings.
From Stdlib Require Import ZArith Lia.

Set Warnings "-clear-no-such-hyp".

Module Specified.
Import OrderRepository.

(** [create(entity)] with [OrderModel.create] inside a managed
    transaction: a rejected item insert rolls back the order row. *)
Definition create (entity : Order.t) : Query unit :=
  transaction (OrderRepository.create entity).

(** [update(entity)] without the [try/catch]: the managed transaction
    rolls back and its rejection reaches the caller. *)
Definition update (entity : Order.t) : Query unit :=
  transaction (update_body entity).

(** [find(id)] that resolves with [null] when no row matches, and
    otherwise rebuilds the order as the source does. *)
Definition find (id : string) : Query (option Order.t) :=
  model ← OrderModel_findOne id;
  mret ((fun '(m, model_items) =>
           Order.new (OrderModel.id m) (OrderModel.customerId m) (find_items model_items))
        <$> model).
End Specified.

(** The contract of section 4.3 for the methods that change: [create]
    stores the order when the schema accepts it and otherwise rejects and
    leaves the store unchanged; [update]
    replaces the stored order's items and total in one transaction, and
    when a step fails leaves the store unchanged and rejects; [find]
    returns the stored order with that id, or reports that there is
    none; neither changes anything else. *)
Record SpecContract (crt upd : Order.t -> Query unit)
  (fnd : string -> Query (option Order.t)) : Prop := {
  sc_create_commits w o :
    db_wf (db w) -> can_create (db w) o ->
    fst (crt o w) = Ok tt /\ abs_orders (db (snd (crt o w))) = abs_orders (db w) ++ [o];
  sc_create_rejects w o :
    ~ can_create (db w) o ->
    (exists e, fst (crt o w) = Err e) /\ db (snd (crt o w)) = db w;
  sc_update_commits w o :
    can_update (db w) o ->
    fst (upd o w) = Ok tt /\
    abs_orders (db (snd (upd o w))) =
      abs_replace Order.id (order_replace o) (Order.id o) (abs_orders (db w));
  sc_update_rejects w o :
    ~ can_update (db w) o ->
    (exists e, fst (upd o w) = Err e) /\ db (snd (upd o w)) = db w;
  sc_find w k : fnd k w = (Ok (abs_lookup Order.id k (abs_orders (db w))), w) }.

(** A call of a program on the specified repository; the calls on the
    customer and product repositories and [findAll] are the source's. *)
Definition spec_exec (c : call) (w : World) : World :=
  match c with
  | CreateOrder o => snd (Specified.create o w)
  | UpdateOrder o => snd (Specified.update o w)
  | FindOrder i => snd (Specified.find i w)
  | _ => exec c w
  end.

Inductive spec_reachable : World -> Prop :=
  | spec_reach_init : spec_reachable (mkWorld empty_db [])
  | spec_reach_exec w c : spec_reachable w -> spec_reachable (spec_exec c w).

(** A program whose second [create] reuses the id of a stored item: the
    item rows of [create] are checked one by one, so its first item is
    rejected and its second one stored. *)
Definition duplicate_item_program : list call :=
  [CreateCustomer (Customer.mk "c" "Customer" None false);
   CreateProduct (Product.mk "p" "Product" 10);
   CreateOrder (Order.mk "1" "c" [OrderItem.mk "i1" "Product" 10 "p" 1]);
   CreateOrder (Order.mk "2" "c" [OrderItem.mk "i1" "Product" 10 "p" 1;
                                  OrderItem.mk "i2" "Product" 10 "p" 2])].

Section SpecifiedFacts.
Import OrderRepository.
Implicit Types (w : World) (o : Order.t).

Lemma specified_create_db w o :
  db (snd (Specified.create o w)) =
    if decide (can_create (db w) o) then created_db (db w) o else db w.
Proof.
  unfold Specified.create. case_decide as Hc.
  - by erewrite transaction_Ok; [|apply create_Ok].
  - destruct (create_Err w o Hc) as [e He].
    destruct (create o w) as [r w'] eqn:Hrun. simpl in He. subst r.
    by erewrite transaction_Err; [|exact Hrun].
Qed.

Lemma specified_create_result w o :
  fst (Specified.create o w) = fst (create o w).
Proof. unfold Specified.create, transaction. by destruct (create o w) as [[] ?]. Qed.

Lemma specified_update_db w o :
  db (snd (Specified.update o w)) =
    if decide (can_update (db w) o) then updated_db (db w) o else db w.
Proof.
  unfold Specified.update. case_decide as Hc.
  - by erewrite transaction_Ok; [|apply update_body_Ok].
  - destruct (update_body_Err w o Hc) as [e He].
    by erewrite transaction_Err; [|exact He].
Qed.

Lemma specified_update_run w o :
  Specified.update o w =
    if decide (can_update (db w) o) then (Ok tt, set_db w (updated_db (db w) o))
    else (fst (Specified.update o w), w).
Proof.
  unfold Specified.update. case_decide as Hc.
  - by apply transaction_Ok, update_body_Ok.
  - destruct (update_body_Err w o Hc) as [e He].
    erewrite transaction_Err by exact He. simpl. by destruct w.
Qed.

Lemma specified_update_Err w o :
  ~ can_update (db w) o -> exists e, fst (Specified.update o w) = Err e.
Proof.
  intros Hc. destruct (update_body_Err w o Hc) as [e He]. exists e.
  unfold Specified.update. by erewrite transaction_Err by exact He.
Qed.

Lemma specified_find_run w k :
  Specified.find k w = (Ok (abs_lookup Order.id k (abs_orders (db w))), w).
Proof.
  unfold Specified.find, OrderModel_findOne, gets, mbind, ST_bind. simpl.
  unfold abs_lookup, abs_orders. rewrite head_filter_fmap.
  destruct (head (filter _ (orders (db w)))) as [m|] eqn:Hm; simpl; [|done].
  rewrite find_items_map. unfold order_of_row. do 3 f_equal.
  apply head_Some_elem_of, list_elem_of_filter in Hm as [Hid _]. by rewrite Hid.
Qed.
Lemma spec_exec_inv c w :
  db_wf (db w) -> totals_consistent (db w) ->
  db_wf (db (spec_exec c w)) /\ totals_consistent (db (spec_exec c w)).
Proof.
  intros Hwf Ht. destruct c as [cu|p|o|o|k|]; cbn [spec_exec].
  - split; [by apply exec_wf|by apply totals_exec].
  - split; [by apply exec_wf|by apply totals_exec].
  - rewrite specified_create_db. case_decide as Hc; [|done].
    pose proof (pw_create o w Hwf) as Hwf'. rewrite create_Ok in Hwf' by done.
    split; [exact Hwf'|by apply totals_created].
  - rewrite specified_update_db. case_decide as Hc; [|done].
    pose proof (pw_update o w Hwf) as Hwf'. rewrite update_Ok in Hwf' by done.
    split; [exact Hwf'|by apply totals_updated].
  - by rewrite specified_find_run.
  - split; [by apply exec_wf|by apply totals_exec].
Qed.
End SpecifiedFacts.

Section SpecifiedTheorems.
Import OrderRepository.
Implicit Types (w : World) (o : Order.t).

(** C13: the repository with the three changes the specification asks
    for meets the contract of section 4.3: an accepted [create] appends
    the order to the store, a rejected one rejects and leaves the store
    unchanged; a committed [update] replaces the
    stored order's items, a failing one rolls back and rejects (section
    8: "must leave the store unchanged and must surface the failure"),
    and [find] reports an absent order as [None]. *)
Theorem specified_meets_contract :
  SpecContract Specified.create Specified.update Specified.find.
Proof.
  split.
  - intros w o Hwf Hc. rewrite specified_create_result, create_Ok by done.
    split; [done|]. rewrite specified_create_db, decide_True by done.
    by apply abs_created.
  - intros w o Hc. rewrite specified_create_result, specified_create_db, decide_False by done.
    split; [apply (create_Err w o Hc)|done].
  - intros w o Hc. rewrite specified_update_run, decide_True by done.
    split; [done|]. apply abs_updated.
  - intros w o Hc. split; [by apply specified_update_Err|].
    rewrite specified_update_run, decide_False by done. done.
  - apply specified_find_run.
Qed.

End SpecifiedTheorems.

Section SpecifiedRuns.
Import OrderRepository.

(** C14: every run of a program on the specified repository, from an empty
    database and whatever its calls resolve or reject with, keeps the
    schema's constraints and every stored total equal to the sum of its
    stored items: with [create] atomic, the aggregate invariant needs no
    hypothesis on the calls (compare [sound_run_totals]). *)
Theorem specified_runs_consistent w :
  spec_reachable w -> db_wf (db w) /\ totals_consistent (db w).
Proof.
  induction 1 as [|w c _ [Hwf Ht]].
  - split; [by_decide|constructor].
  - by apply spec_exec_inv.
Qed.

End SpecifiedRuns.

(** * Witnesses *)

Lemma specified_runs_consistent_witness :
  let w := foldl (fun w c => spec_exec c w) (mkWorld empty_db []) duplicate_item_program in
  spec_reachable w /\ db_wf (db w) /\ totals_consistent (db w).
Proof.
  intros w.
  assert (Hw : spec_reachable w).
  { unfold w, duplicate_item_program. cbn [foldl].
    repeat apply spec_reach_exec. apply spec_reach_init. }
  split; [exact Hw|]. exact (specified_runs_consistent w Hw).
Defined.
