(* ===== verification/Ordering.v ===== *)
(** * Two updates in sequence

    The repository's calls are awaited one after the other and each
    [update] runs its transaction to the end (specification, section 5),
    so two updates of a program run in one order or the other.  This file
    shows what the two orders give.  Two updates of the same order: the
    second wins, exactly.  Two updates of different orders commute up to
    [same_orders], the equivalence of databases that hold the same orders:
    the rows of [order_items] are not in the same order, but no call of the
    repository can tell, since [find] and [findAll] only see the orders.
    [same_orders] is an [Equivalence] with [Proper] instances, so proofs
    rewrite with it. *)

From S2P Require Import Prelude Domain Persistence OrderRepository RepositorySpec.
From stdpp Require Import base list sets strings.
From Stdlib Require Import ZArith Lia Morphisms.

Set Warnings "-clear-no-such-hyp".

(** Two databases holding the same orders, as [findAll] rebuilds them. *)
Definition same_orders (d1 d2 : DB) : Prop := abs_orders d1 = abs_orders d2.

#[global] Instance same_orders_equiv : Equivalence same_orders.
Proof. unfold same_orders. split; [done | by intros ?? -> | by intros ??? -> ->]. Qed.

#[global] Instance abs_orders_proper : Proper (same_orders ==> eq) abs_orders.
Proof. by intros d1 d2 Hd. Qed.

(** A committed [update] acts on the orders only: databases with the same
    orders stay so. *)
#[global] Instance updated_db_proper : Proper (same_orders ==> eq ==> same_orders) updated_db.
Proof. intros d1 d2 Hd o ? <-. unfold same_orders. by rewrite !abs_updated, Hd. Qed.

(** * Abstract replacements *)

Section AbsReplace.
Context {T : Type} (key : T -> string).

Lemma abs_replace_commute (f g : T -> T) k1 k2 (s : list T) :
  k1 <> k2 ->
  (forall y, key (f y) = k1) -> (forall y, key (g y) = k2) ->
  abs_replace key g k2 (abs_replace key f k1 s) =
    abs_replace key f k1 (abs_replace key g k2 s).
Proof.
  intros Hk Hf Hg. unfold abs_replace. rewrite <- !list_fmap_compose.
  apply list_fmap_ext. intros _ y _. simpl.
  repeat case_decide; rewrite ?Hf, ?Hg in *; congruence.
Qed.
End AbsReplace.

(** * The same order updated twice *)

Section SameOrder.
Import OrderRepository.
Implicit Types (w : World) (o : Order.t) (d : DB).

Lemma items_after_same d o1 o2 :
  Order.id o1 = Order.id o2 ->
  filter (fun r => OrderItemModel.orderId r <> Order.id o2)
    (filter (fun r => OrderItemModel.orderId r <> Order.id o1) (order_items d) ++ item_rows o1)
  = filter (fun r => OrderItemModel.orderId r <> Order.id o2) (order_items d).
Proof.
  intros Heq. rewrite filter_app, (filter_none _ (item_rows o1)), app_nil_r.
  - rewrite Heq. by apply list_filter_filter_l.
  - eapply Forall_impl; [apply item_rows_orderId|]. intros r Hr Hr'.
    apply Hr'. cbn in *. by rewrite Hr, Heq.
Qed.

Lemma updated_twice_same d o1 o2 :
  Order.id o1 = Order.id o2 -> updated_db (updated_db d o1) o2 = updated_db d o2.
Proof.
  intros Heq. unfold updated_db at 1 2 3. simpl. rewrite items_after_same by done.
  f_equal. rewrite <- list_fmap_compose. apply list_fmap_ext. intros _ r _.
  unfold with_total. simpl. rewrite Heq. by repeat case_decide.
Qed.

Lemma can_update_after_same d o1 o2 :
  Order.id o1 = Order.id o2 ->
  can_update (updated_db d o1) o2 <-> can_update d o2.
Proof.
  intros Heq. unfold can_update, without_items. apply insertable_ext; simpl.
  - unfold item_ids; simpl. by rewrite items_after_same.
  - unfold order_ids; simpl. apply with_total_ids.
  - done.
Qed.

(** C17: two [update]s of the same order in sequence do exactly what the
    second one alone does: the last writer wins, and nothing of the first
    remains (its items, its total). *)
Theorem update_last_writer_wins w o1 o2 :
  Order.id o1 = Order.id o2 -> can_update (db w) o1 -> can_update (db w) o2 ->
  (_ ← update o1; update o2) w = update o2 w.
Proof.
  intros Heq H1 H2. rewrite (run_bind_Ok _ _ _ _ _ (update_Ok w o1 H1)).
  rewrite !update_Ok; [| done | by apply can_update_after_same].
  simpl. by rewrite updated_twice_same.
Qed.
End SameOrder.

(** * Different orders *)

Section DifferentOrders.
Import OrderRepository.
Implicit Types (w : World) (o : Order.t) (d : DB).

Lemma order_replace_key o y : Order.id (order_replace o y) = Order.id o.
Proof. done. Qed.

(** Databases with the same orders answer every [find] and [findAll]
    alike. *)
Lemma observe_same_orders w1 w2 k :
  same_orders (db w1) (db w2) ->
  fst (find k w1) = fst (find k w2) /\ fst (findAll w1) = fst (findAll w2).
Proof.
  intros Hd. rewrite !find_abs, !findAll_run.
  change (order_of_row (db w1) <$> orders (db w1)) with (abs_orders (db w1)).
  change (order_of_row (db w2) <$> orders (db w2)) with (abs_orders (db w2)).
  unfold same_orders in Hd. rewrite Hd.
  split; [destruct (abs_lookup Order.id k (abs_orders (db w2))); reflexivity | reflexivity].
Qed.

(** C18: updates of two different orders commute: when each can be stored
    in either order, both sequences resolve and end with databases that
    hold the same orders, so every later [find] and [findAll] returns the
    same thing after either sequence. *)
Theorem updates_commute w o1 o2 :
  Order.id o1 <> Order.id o2 ->
  can_update (db w) o1 -> can_update (updated_db (db w) o1) o2 ->
  can_update (db w) o2 -> can_update (updated_db (db w) o2) o1 ->
  fst ((_ ← update o1; update o2) w) = Ok tt /\
  fst ((_ ← update o2; update o1) w) = Ok tt /\
  same_orders (db (snd ((_ ← update o1; update o2) w)))
              (db (snd ((_ ← update o2; update o1) w))) /\
  forall k, fst (find k (snd ((_ ← update o1; update o2) w))) =
            fst (find k (snd ((_ ← update o2; update o1) w))).
Proof.
  intros Hne H1 H12 H2 H21.
  rewrite (run_bind_Ok _ _ _ _ _ (update_Ok w o1 H1)),
          (run_bind_Ok _ _ _ _ _ (update_Ok w o2 H2)).
  rewrite !update_Ok by done. simpl.
  assert (Hs : same_orders (updated_db (updated_db (db w) o1) o2)
                           (updated_db (updated_db (db w) o2) o1)).
  { unfold same_orders. rewrite !abs_updated.
    apply abs_replace_commute; [done | apply order_replace_key..]. }
  split; [done|]. split; [done|]. split; [exact Hs|].
  intros k. apply (observe_same_orders (set_db w _) (set_db w _) k Hs).
Qed.

(** A database that holds the same orders stays so under any later
    committed [update]: once two sequences of updates agree on the orders,
    they agree after any further updates (setoid rewriting with
    [updated_db_proper]). *)
Lemma same_orders_after_updates d1 d2 os :
  same_orders d1 d2 ->
  same_orders (foldl updated_db d1 os) (foldl updated_db d2 os).
Proof.
  revert d1 d2. induction os as [|o os IH]; intros d1 d2 Hd; simpl; [done|].
  apply IH. by rewrite Hd.
Qed.
End DifferentOrders.

(** * Witnesses *)

Section Witnesses.
Import OrderRepository.
Local Open Scope string_scope.

Lemma update_last_writer_wins_witness :
  let o1 := Order.mk "1" "123" [OrderItem.mk "2" "Name Test" 20 "123" 3] in
  let o2 := Order.mk "1" "123" [OrderItem.mk "3" "Name Test" 15 "123" 1] in
  Order.id o1 = Order.id o2 /\ can_update (db sample_world) o1 /\
  can_update (db sample_world) o2 /\
  (_ ← update o1; update o2) sample_world = update o2 sample_world.
Proof.
  intros o1 o2. split; [reflexivity|]. split; [by_decide|]. split; [by_decide|].
  apply update_last_writer_wins; [reflexivity | by_decide | by_decide].
Defined.

Lemma updates_commute_witness :
  let w := mkWorld (created_db (db sample_world)
                      (Order.mk "2" "123" [OrderItem.mk "4" "Name Test" 14 "123" 1])) [] in
  let o1 := Order.mk "1" "123" [OrderItem.mk "5" "Name Test" 20 "123" 3] in
  let o2 := Order.mk "2" "123" [OrderItem.mk "6" "Name Test" 15 "123" 1] in
  Order.id o1 <> Order.id o2 /\
  can_update (db w) o1 /\ can_update (updated_db (db w) o1) o2 /\
  can_update (db w) o2 /\ can_update (updated_db (db w) o2) o1 /\
  (fst ((_ ← update o1; update o2) w) = Ok tt /\
   fst ((_ ← update o2; update o1) w) = Ok tt /\
   same_orders (db (snd ((_ ← update o1; update o2) w)))
               (db (snd ((_ ← update o2; update o1) w))) /\
   forall k, fst (find k (snd ((_ ← update o1; update o2) w))) =
             fst (find k (snd ((_ ← update o2; update o1) w)))).
Proof.
  intros w o1 o2.
  assert (Hne : Order.id o1 <> Order.id o2) by by_decide.
  assert (H1 : can_update (db w) o1) by by_decide.
  assert (H12 : can_update (updated_db (db w) o1) o2) by by_decide.
  assert (H2 : can_update (db w) o2) by by_decide.
  assert (H21 : can_update (updated_db (db w) o2) o1) by by_decide.
  do 4 (split; [assumption|]). split; [assumption|].
  exact (updates_commute w o1 o2 Hne H1 H12 H2 H21).
Defined.

End Witnesses.
