(* ===== verification/Concurrency.v ===== *)
(** * Calls in flight: the asynchronous-suspension model of section 5

    A repository method is an [async] function: it runs until an [await]
    on the persistence boundary, suspends, and resumes with the result or
    the failure.  A [Task] is a call in flight: either settled, or waiting
    to run its next turn (the code from one resumption up to and including
    the persistence call it then awaits).  Several calls started without
    awaiting each other are a list of tasks, and a schedule says which of
    them resumes at each step ([interleave]).

    The turns follow the [await]s of order.repository.ts and of the ORM
    calls it makes:
    - [create]: [OrderModel.create(.., { include })] saves the order row,
      then its items ([Promise.all] of [instance.save()]): two turns;
    - [update]: the managed transaction is one turn (section 5: the
      transaction's three steps commit together and concurrent updates are
      serialized by the database's isolation), then, when it rejected, the
      [catch] block's [console.log] runs when the call resumes;
    - [find] and [findAll]: one query, then synchronous code that reads
      only the loaded rows: one turn.
    Run alone, each task computes its method of OrderRepository.v
    ([run_alone_create], [run_alone_update], [run_alone_call]).  The
    theorems are about [create]'s two turns: another call that runs
    between them sees the order row without its items
    ([create_find_dirty_read]), or writes under it
    ([create_update_interleaved]). *)

From S2P Require Import Prelude Domain Persistence OrderRepository RepositorySpec.
From stdpp Require Import base list sets strings.
From Stdlib Require Import ZArith Lia.

Set Warnings "-clear-no-such-hyp".

(** ** Calls in flight *)

(** [Turn next effect]: the next turn changes the world [w] into
    [effect w] and leaves the call as [next w]. *)
Inductive Task (A : Type) : Type :=
  | Done (r : result Error A)
  | Turn (next : World -> Task A) (effect : World -> World).
Arguments Done {A} r.
Arguments Turn {A} next effect.

(** [await q] then continue with [k] applied to the outcome of [q]. *)
Definition await {A B} (q : Query B) (k : result Error B -> Task A) : Task A :=
  Turn (fun w => k (fst (q w))) (fun w => snd (q w)).

(** A rejection propagates to the caller of the [async] function. *)
Definition and_then {A B} (r : result Error B) (k : B -> Task A) : Task A :=
  match r with
  | Ok b => k b
  | Err e => Done (Err e)
  end.

Fixpoint task_map {A B} (f : A -> B) (t : Task A) : Task B :=
  match t with
  | Done r => Done (a ← r; mret (f a))
  | Turn next effect => Turn (fun w => task_map f (next w)) effect
  end.

(** A call run to the end with no other call in between. *)
Fixpoint run_alone {A} (t : Task A) (w : World) : result Error A * World :=
  match t with
  | Done r => (r, w)
  | Turn next effect => run_alone (next w) (effect w)
  end.

(** ** The ORM's [create] with [include], turn by turn *)

(** The order row is saved first; when it is, the saves of the items are
    started together ([Promise.all]) and awaited. *)
Definition OrderModel_create_task (r : OrderModel.t) (items : list OrderItemAttrs.t)
  : Task unit :=
  await (insert_order r) (fun res =>
    and_then res (fun _ =>
      await (save_all (attach (OrderModel.id r) <$> items)) Done)).

(** ** The repository's methods, turn by turn *)

Module OrderRepositoryTasks.
Import OrderRepository.

(** [create(entity)]: [await OrderModel.create(values, { include })]. *)
Definition create_task (entity : Order.t) : Task unit :=
  let values := create_values entity in
  OrderModel_create_task values.1 values.2.

(** [update(entity)]: [try { await sequelize.transaction(...) } catch
    (error) { console.log(`error: ${error}`) }]. *)
Definition update_task (entity : Order.t) : Task unit :=
  await (transaction (update_body entity)) (fun res =>
    match res with
    | Ok _ => Done (Ok tt)
    | Err error =>
        await (console_log ("error: " +:+ error_toString error)%string)
              (fun _ => Done (Ok tt))
    end).

(** [find(id)]: [await OrderModel.findOne(..)], then the loop and the
    constructor, which read only the loaded [model]. *)
Definition find_task (id : string) : Task Order.t := await (find id) Done.

(** [findAll()]: [await OrderModel.findAll(..)], then [orders.map]. *)
Definition findAll_task : Task (list Order.t) := await findAll Done.
End OrderRepositoryTasks.

Import OrderRepositoryTasks.

(** ** Several calls in flight *)

(** What a call resolves with. *)
Inductive reply : Type :=
  | Resolved
  | FoundOrder (o : Order.t)
  | FoundOrders (os : list Order.t).

(** A call of a program, started without awaiting the calls before it. *)
Definition call_task (c : call) : Task reply :=
  match c with
  | CreateCustomer cu => task_map (fun _ => Resolved) (await (CustomerRepository_create cu) Done)
  | CreateProduct p => task_map (fun _ => Resolved) (await (ProductRepository_create p) Done)
  | CreateOrder o => task_map (fun _ => Resolved) (create_task o)
  | UpdateOrder o => task_map (fun _ => Resolved) (update_task o)
  | FindOrder i => task_map FoundOrder (find_task i)
  | FindAllOrders => task_map FoundOrders findAll_task
  end.

(** The next turn of the [i]-th call; a settled call is left alone. *)
Definition turn_at {A} (i : nat) (ts : list (Task A)) (w : World)
  : list (Task A) * World :=
  match ts !! i with
  | Some (Turn next effect) => (<[i := next w]> ts, effect w)
  | _ => (ts, w)
  end.

(** The calls' turns in the order of the schedule [s]. *)
Fixpoint interleave {A} (s : list nat) (ts : list (Task A)) (w : World)
  : list (Task A) * World :=
  match s with
  | [] => (ts, w)
  | i :: s' => let tw := turn_at i ts w in interleave s' tw.1 tw.2
  end.

Definition outcome {A} (t : Task A) : option (result Error A) :=
  match t with
  | Done r => Some r
  | Turn _ _ => None
  end.

(** The outcomes of the calls, once every one has settled. *)
Definition settled {A} (ts : list (Task A)) : option (list (result Error A)) :=
  mapM outcome ts.

(** Concrete worlds and calls for the interleavings below: the referenced
    rows of the tests, and an update of order "1" with a new item. *)
Definition refs_world : World := mkWorld sample_refs [].


(** * A call run alone is the method of the sequential model *)

Section RunAlone.

Lemma run_alone_await {A B} (q : Query B) (k : result Error B -> Task A) w :
  run_alone (await q k) w = run_alone (k (fst (q w))) (snd (q w)).
Proof. reflexivity. Qed.

Lemma run_alone_await_done {A} (q : Query A) w : run_alone (await q Done) w = q w.
Proof. rewrite run_alone_await. simpl. by destruct (q w). Qed.

Lemma run_alone_task_map {A B} (f : A -> B) t w :
  run_alone (task_map f t) w = (fst (run_alone t w) ≫= (fun a => mret (f a)), snd (run_alone t w)).
Proof. revert w. induction t as [r|next IH eff]; intros w; simpl; auto. Qed.

Lemma run_alone_create o w : run_alone (create_task o) w = OrderRepository.create o w.
Proof.
  unfold create_task, OrderModel_create_task, OrderRepository.create, OrderModel_create.
  rewrite run_alone_await. unfold mbind, ST_bind.
  destruct (insert_order _ w) as [[u|e] w1]; cbn [fst snd and_then]; [|done].
  apply run_alone_await_done.
Qed.

Lemma run_alone_update o w : run_alone (update_task o) w = OrderRepository.update o w.
Proof.
  unfold update_task, OrderRepository.update, catch. rewrite run_alone_await.
  destruct (transaction _ w) as [[[]|e] w1]; reflexivity.
Qed.

Lemma run_alone_call c w : snd (run_alone (call_task c) w) = exec c w.
Proof.
  destruct c; unfold call_task, find_task, findAll_task; rewrite run_alone_task_map;
    cbn [snd]; by rewrite ?run_alone_await_done, ?run_alone_create, ?run_alone_update.
Qed.
End RunAlone.

Section Interleavings.



(** C16 (finding): a [find] that runs between the two turns of a
    [create] of the same order reads the order without any of its items,
    though [create] then resolves and stores them all.  Awaited one after
    the other, [find] returns the order with its items (after [create],
    [create_find_roundtrip]) or rejects with the [TypeError] (before it,
    [find_missing]); so for an order with items the interleaved outcome
    is one no sequential run gives. *)
Theorem create_find_dirty_read w o :
  db_wf (db w) -> can_create (db w) o ->
  let tw := interleave [0; 1; 0]
              (call_task <$> [CreateOrder o; FindOrder (Order.id o)]) w in
  settled (fst tw) =
    Some [Ok Resolved; Ok (FoundOrder (Order.mk (Order.id o) (Order.customerId o) []))] /\
  db (snd tw) = created_db (db w) o.
Proof.
  intros Hwf Hc tw. subst tw.
  destruct (proj1 (can_create_iff _ _) Hc) as [Hco Hins].
  set (w1 := set_db w (set_orders (db w) (orders (db w) ++ [order_row o]))).
  assert (H1 : insert_order (order_row o) w = (Ok tt, w1)) by (by apply insert_order_Ok).
  set (rows := attach (Order.id o) <$> (OrderRepository.create_item <$> Order.items o)).
  assert (Hrows : rows = item_rows o) by (unfold rows; by rewrite <- list_fmap_compose).
  assert (H3 : save_all rows w1 = (Ok tt, set_db w (created_db (db w) o))).
  { rewrite Hrows, save_all_Ok by exact Hins. done. }
  assert (Hwf1 : db_wf (db w1)).
  { pose proof (pw_insert_order (order_row o) w Hwf) as H. by rewrite H1 in H. }
  assert (H2 : OrderRepository.find (Order.id o) w1 =
                 (Ok (Order.mk (Order.id o) (Order.customerId o) []), w1)).
  { change (Order.id o) with (OrderModel.id (order_row o)) at 1.
    rewrite find_found; [|apply Hwf1|apply elem_of_app; right; by left].
    unfold order_of_row. cbn [order_row OrderModel.id OrderModel.customerId].
    change (items_of (db w1) (Order.id o)) with (items_of (db w) (Order.id o)).
    rewrite items_of_fresh; [done|done|]. destruct Hc as [Hf _]. exact Hf. }
  change (order_row o) with (OrderRepository.create_values o).1 in H1.
  change rows with (attach (OrderModel.id (OrderRepository.create_values o).1)
                      <$> (OrderRepository.create_values o).2) in H3.
  unfold create_task, OrderModel_create_task, find_task.
  cbn -[OrderRepository.create_values insert_order save_all OrderRepository.find].
  rewrite H1. cbn -[OrderRepository.create_values insert_order save_all OrderRepository.find].
  rewrite H2. cbn -[OrderRepository.create_values insert_order save_all OrderRepository.find].
  rewrite H3. done.
Qed.
End Interleavings.

(** * Witnesses *)


Lemma create_find_dirty_read_witness :
  db_wf (db refs_world) /\ can_create (db refs_world) sample_order /\
  (let tw := interleave [0; 1; 0]
               (call_task <$> [CreateOrder sample_order; FindOrder (Order.id sample_order)])
               refs_world in
   settled (fst tw) =
     Some [Ok Resolved; Ok (FoundOrder (Order.mk (Order.id sample_order)
                                          (Order.customerId sample_order) []))] /\
   db (snd tw) = created_db (db refs_world) sample_order).
Proof.
  assert (Hwf : db_wf (db refs_world)) by by_decide.
  assert (Hc : can_create (db refs_world) sample_order) by by_decide.
  split; [exact Hwf|]. split; [exact Hc|].
  exact (create_find_dirty_read refs_world sample_order Hwf Hc).
Defined.
