(* ===== verification/Scenarios.v ===== *)
(** * The test suites, run on the model

    [CustomerSpec] is src/domain/entity/custumer.spec.ts and
    [OrderRepositorySpec] is src/infrastructure/repository/
    order.repository.spec.ts: each [test]/[it] body is a definition that
    returns what its [expect] inspects, run from the state [beforeEach]
    prepares.  The theorems below show every expectation holds; they also
    show the update test cannot fail when [update] does nothing. *)

From S2P Require Import Prelude Domain Persistence OrderRepository.
From stdpp Require Import base list sets strings.
From Stdlib Require Import ZArith Lia.

Local Open Scope string_scope.
Local Open Scope Z_scope.

Module CustomerSpec.
(** "should throw error when id is empty" *)
Definition id_is_empty : result DomainError Customer.t :=
  Customer.new "" "Rafael".

(** "should throw error when name is empty" *)
Definition name_is_empty : result DomainError Customer.t :=
  Customer.new "1" "".

(** "should change name" *)
Definition change_name : result DomainError string :=
  customer ← Customer.new "1" "Rafael";
  let customer := Customer.changeName customer "Rafael Railton" in
  mret (Customer.name customer).

(** "should throw error when address is undefined when you activate a
    customer" *)
Definition activate_without_address : result DomainError Customer.t :=
  customer ← Customer.new "1" "Costumer 1";
  Customer.activate customer.

(** "should activate customer" *)
Definition activate_customer : result DomainError bool :=
  customer ← Customer.new "1" "Costumer 1";
  let address := Address.mk "Street 1" 12 "12323-657" "Manaus" in
  let customer := Customer.changeAddress customer address in
  customer ← Customer.activate customer;
  mret (Customer.isActive customer).

(** "should deactivate customer" *)
Definition deactivate_customer : result DomainError bool :=
  customer ← Customer.new "1" "Costumer 1";
  let customer := Customer.deactivate customer in
  mret (Customer.isActive customer).
End CustomerSpec.

Module OrderRepositorySpec.
(** [beforeEach]: a new in-memory SQLite database, synchronised with
    [force: true]: every table empty. *)
Definition setup : World := mkWorld empty_db [].

Definition test_address : Address.t :=
  Address.mk "Street Test" 13 "57525000" "City Test".

(** "should create a new Order": resolves with what
    [OrderModel.findOne(...)] returns and the order. *)
Definition create_order
  : Query (option (OrderModel.t * list OrderItemModel.t) * Order.t) :=
  customer ← lift_result (Customer.new "123" "Rafael");
  let customer := Customer.changeAddress customer test_address in
  _ ← CustomerRepository_create customer;
  let product := Product.new "123" "Name Test" 14 in
  _ ← ProductRepository_create product;
  let orderItem := OrderItem.new "1" (Product.name product)
                     (Product.price product) (Product.id product) 2 in
  let order := Order.new "1" (Customer.id customer) [orderItem] in
  _ ← OrderRepository.create order;
  orderModel ← OrderModel_findOne (Order.id order);
  mret (orderModel, order).

(** "should update an order", with the repository's [update] and the
    price of the updated item as parameters (the test passes
    [OrderRepository.update] and 14). *)
Definition update_order_with (update : Order.t -> Query unit) (price : Z)
  : Query (option (OrderModel.t * list OrderItemModel.t) * Order.t) :=
  customer ← lift_result (Customer.new "123" "Rafael");
  let customer := Customer.changeAddress customer test_address in
  _ ← CustomerRepository_create customer;
  let product := Product.new "123" "Product 1" 14 in
  _ ← ProductRepository_create product;
  let orderItem := OrderItem.new "1" (Product.name product)
                     (Product.price product) (Product.id product) 2 in
  let order := Order.new "1" (Customer.id customer) [orderItem] in
  _ ← OrderRepository.create order;
  let orderItemUpdate := OrderItem.new "1" (Product.name product) price
                           (Product.id product) 2 in
  let orderUpdate := Order.new "1" (Customer.id customer) [orderItemUpdate] in
  _ ← update orderUpdate;
  orderModel ← OrderModel_findOne (Order.id orderUpdate);
  mret (orderModel, orderUpdate).

Definition update_order := update_order_with OrderRepository.update 14.

(** "should find an order": the result of [find] and the order. *)
Definition find_order : Query (Order.t * Order.t) :=
  customer ← lift_result (Customer.new "123" "Rafael");
  let customer := Customer.changeAddress customer test_address in
  _ ← CustomerRepository_create customer;
  let product := Product.new "123" "Name Test" 14 in
  _ ← ProductRepository_create product;
  let orderItem := OrderItem.new "1" (Product.name product)
                     (Product.price product) (Product.id product) 2 in
  let order := Order.new "1" (Customer.id customer) [orderItem] in
  _ ← OrderRepository.create order;
  result ← OrderRepository.find (Order.id order);
  mret (result, order).

(** "should find all orders": the length of [findAll]'s result. *)
Definition find_all_orders : Query nat :=
  customer ← lift_result (Customer.new "123" "Rafael");
  let customer := Customer.changeAddress customer test_address in
  _ ← CustomerRepository_create customer;
  let product1 := Product.new "123" "Name Test 1" 10 in
  _ ← ProductRepository_create product1;
  let product2 := Product.new "321" "Name Test 2" 20 in
  _ ← ProductRepository_create product2;
  let orderItem1 := OrderItem.new "1" (Product.name product1)
                      (Product.price product1) (Product.id product1) 2 in
  let orderItem2 := OrderItem.new "2" (Product.name product2)
                      (Product.price product2) (Product.id product2) 2 in
  let order := Order.new "1" (Customer.id customer) [orderItem1] in
  _ ← OrderRepository.create order;
  let order2 := Order.new "2" (Customer.id customer) [orderItem2] in
  _ ← OrderRepository.create order2;
  result ← OrderRepository.findAll;
  mret (length result).
End OrderRepositorySpec.

(** * The expectations *)

Section CustomerTests.
Import CustomerSpec.

(** the six tests of custumer.spec.ts pass: an empty id and an empty
    name are rejected with their messages, [changeName] changes the name,
    [activate] without an address throws "Address is mandatory to
    activate a customer", [activate] with one makes [isActive()] true and
    [deactivate] makes it false. *)
Theorem customer_tests_pass :
  id_is_empty = Err (ValidationError "Id is required") /\
  name_is_empty = Err (ValidationError "Name is required") /\
  change_name = Ok "Rafael Railton" /\
  activate_without_address =
    Err (ValidationError "Address is mandatory to activate a customer") /\
  activate_customer = Ok true /\
  deactivate_customer = Ok false.
Proof. repeat split. Qed.
End CustomerTests.

Section OrderRepositoryTests.
Import OrderRepositorySpec.

(** "should create a new Order" passes: after [create], the stored
    order row is [{ id: "1", customerId: "123", total: order.total() }]
    with exactly the one item, [orderId] "1" and [productId] "123". *)
Lemma create_order_test_passes :
  exists order, fst (create_order setup) =
    Ok (Some (OrderModel.mk "1" "123" (Order.total order),
              [OrderItemModel.mk "1" "Name Test" 14 "123" 2 "1"]), order).
Proof.
  exists (Order.new "1" "123" [OrderItem.new "1" "Name Test" 14 "123" 2]).
  vm_compute. reflexivity.
Qed.

(** "should update an order" passes: after [update], the row holds
    [orderUpdate.total()] and exactly the updated item. *)
Lemma update_order_test_passes :
  exists orderUpdate, fst (update_order setup) =
    Ok (Some (OrderModel.mk "1" "123" (Order.total orderUpdate),
              [OrderItemModel.mk "1" "Product 1" 14 "123" 2 "1"]), orderUpdate).
Proof.
  exists (Order.new "1" "123" [OrderItem.new "1" "Product 1" 14 "123" 2]).
  vm_compute. reflexivity.
Qed.

(** Finding: the update test cannot detect a broken [update]: the
    updated item has the same price (14) and quantity as the original,
    so the test observes exactly the same thing when [update] does
    nothing at all (as when its transaction fails and the error is
    swallowed). *)
Theorem update_test_blind_to_noop :
  fst (update_order_with (fun _ => mret tt) 14 setup) = fst (update_order setup).
Proof. vm_compute. reflexivity. Qed.

(** "should find an order" passes: [find] returns an order with the
    created order's id and customer id. *)
Lemma find_order_test_passes :
  exists result order, fst (find_order setup) = Ok (result, order) /\
    Order.id result = Order.id order /\
    Order.customerId result = Order.customerId order.
Proof.
  set (o := Order.new "1" "123" [OrderItem.new "1" "Name Test" 14 "123" 2]).
  exists o, o. split; [vm_compute; reflexivity | done].
Qed.

(** "should find all orders" passes: after creating two orders,
    [findAll] returns two. *)
Lemma find_all_orders_test_passes : fst (find_all_orders setup) = Ok 2%nat.
Proof. vm_compute. reflexivity. Qed.
(** the four tests of order.repository.spec.ts pass: after [create]
    the stored row and item are the expected ones; after [update] the row
    holds the new total and exactly the updated item; [find] returns an
    order with the created id and customer id; after two [create]s
    [findAll] returns two orders. *)
Theorem order_repository_tests_pass :
  (exists order, fst (create_order setup) =
     Ok (Some (OrderModel.mk "1" "123" (Order.total order),
               [OrderItemModel.mk "1" "Name Test" 14 "123" 2 "1"]), order)) /\
  (exists orderUpdate, fst (update_order setup) =
     Ok (Some (OrderModel.mk "1" "123" (Order.total orderUpdate),
               [OrderItemModel.mk "1" "Product 1" 14 "123" 2 "1"]), orderUpdate)) /\
  (exists result order, fst (find_order setup) = Ok (result, order) /\
     Order.id result = Order.id order /\
     Order.customerId result = Order.customerId order) /\
  fst (find_all_orders setup) = Ok 2%nat.
Proof.
  split; [apply create_order_test_passes|]. split; [apply update_order_test_passes|].
  split; [apply find_order_test_passes|apply find_all_orders_test_passes].
Qed.
End OrderRepositoryTests.
